(** * Real-time chat backend: connection manager and WebSocket protocol handler

    A shallow embedding of [backend/app/websocket/connection_manager.py] and
    [backend/app/websocket/router.py], with [verify_token] of
    [backend/app/core/security.py] and the attributes of [Settings] of
    [backend/app/core/config.py].

    Conventions of the embedding.
    - A [WebSocket] object is represented by its identity [id(websocket)], an
      integer; the objects compare by identity in the source.
    - [datetime.utcnow()] is an input: every operation takes the instant [now]
      (seconds, as an integer) at which it runs.
    - The coroutines of the source are run one after the other, each to
      completion; [asyncio.gather] runs its tasks in list order.
    - What the transport and the collaborators do is an input too: which
      sockets accept a write, what the membership table answers, whether the
      Redis client is reachable (record [World]).
    - Effects that leave the process (frames written, sockets closed, messages
      published or handed to the store, warnings and errors logged) are
      returned as a list of [effect]s, in program order.  Info and debug log
      lines are not recorded; a log call that raises is (see [log_returns]).
    - A Python set or dict is a [gset] or [gmap]: where the source iterates
      over one, the embedding iterates over its elements in the order
      [elements] and [map_to_list] give them.
    - Of [cleanup_stale_connections] the staleness test and the list of stale
      connections are embedded; what it does with a stale connection is a call
      of [disconnect]. *)

From stdpp Require Import base ssreflect option list gmap sets strings.
From Stdlib Require Import ZArith.

#[local] Set Warnings "-rewrite-rw,-clear-no-such-hyp".

(** ** JSON values *)

(** The value a frame carries once decoded, and the value [json.dumps] is
    applied to before a frame is written.  [JTime t] stands for the string
    [datetime.isoformat()] of the instant [t], and [JMsgId t u] for the string
    [f"msg_{t}_{u}"]. *)
#[warnings="-register-all"]
Inductive json : Type :=
| JNull
| JBool (b : bool)
| JNum (n : Z)
| JStr (s : string)
| JTime (t : Z)
| JMsgId (t : Z) (u : string)
| JArr (items : list json)
| JObj (fields : list (string * json)).

(** Python's truth value of a decoded JSON value. *)
Definition truthy (v : json) : bool :=
  match v with
  | JNull => false
  | JBool b => b
  | JNum n => negb (n =? 0)%Z
  | JStr s => negb (String.eqb s "")
  | JTime _ | JMsgId _ _ => true
  | JArr items => match items with [] => false | _ => true end
  | JObj fields => match fields with [] => false | _ => true end
  end.

(** Lists and dicts cannot be used as dictionary keys. *)
Definition hashable (v : json) : bool :=
  match v with
  | JArr _ | JObj _ => false
  | _ => true
  end.

(** [d.get(k)] on the fields of a dict: the first binding of [k]. *)
Fixpoint dict_lookup (k : string) (fields : list (string * json)) : option json :=
  match fields with
  | [] => None
  | (k', v) :: rest => if String.eqb k k' then Some v else dict_lookup k rest
  end.

Definition dict_get (k : string) (fields : list (string * json)) : json :=
  default JNull (dict_lookup k fields).

Definition dict_get_default (k : string) (dflt : json)
    (fields : list (string * json)) : json :=
  default dflt (dict_lookup k fields).

(** [d[k] = v] in a dict literal: replaces the binding in place when the key is
    present, appends it otherwise. *)
Fixpoint dict_set (k : string) (v : json) (fields : list (string * json))
    : list (string * json) :=
  match fields with
  | [] => [(k, v)]
  | (k', v') :: rest =>
      if String.eqb k k' then (k, v) :: rest else (k', v') :: dict_set k v rest
  end.

Definition dict_keys (fields : list (string * json)) : list string :=
  fields.*1.

(** A Python return value, as far as the modelled functions need it. *)
Inductive pyval : Type :=
| PyNone
| PyInt (n : Z).

(** ** Effects *)

Inductive effect : Type :=
| Sent (ws : Z) (msg : json)          (* websocket.send_text(json.dumps msg) returned *)
| SendFailed (ws : Z) (msg : json)    (* send_text raised; logged as an error *)
| Closed (ws : Z) (code : Z)          (* websocket.close(code=...) was called *)
| Published (topic : json) (msg : json) (* redis publish on "chatroom:<topic>" *)
| Stored (msg : json)                 (* create_task(store_message_in_mongodb msg) *)
| Logged (level : string) (what : string).

(** ** The connection manager *)

Record Metadata : Type := mkMetadata {
  md_user_id : string;
  connected_at : Z;
  last_activity : Z
}.

Record ConnectionManager : Type := mkManager {
  active_connections : gmap string (list Z);
  chatroom_subscriptions : gmap string (gset string);
  user_presence : gmap string Z;
  connection_metadata : gmap Z Metadata
}.

(** [ConnectionManager.__init__] *)
Definition new_manager : ConnectionManager :=
  mkManager ∅ ∅ ∅ ∅.

(** What the operations take from outside the process. *)
Record World : Type := mkWorld {
  send_ok : Z → bool;                    (* does send_text on this socket return? *)
  is_member : string → string → bool;    (* the ChatroomMember table *)
  redis_ok : bool                        (* does redis publish return? *)
}.

(** [connect], after [websocket.accept()] has returned. *)
Definition connect (now : Z) (ws : Z) (user_id : string)
    (m : ConnectionManager) : ConnectionManager :=
  let conns := default [] (active_connections m !! user_id) in
  mkManager
    (<[user_id := conns ++ [ws]]> (active_connections m))
    (chatroom_subscriptions m)
    (<[user_id := now]> (user_presence m))
    (<[ws := mkMetadata user_id now now]> (connection_metadata m)).

(** [list.remove(x)]: drops the first occurrence. *)
Fixpoint py_remove (x : Z) (l : list Z) : list Z :=
  match l with
  | [] => []
  | y :: rest => if decide (x = y) then rest else y :: py_remove x rest
  end.

(** One round of the purge loop of [disconnect]:
    [subs[chatroom_id].discard(user_id)], then the entry is deleted when it
    became empty. *)
Definition discard_user (user_id : string) (subs : gmap string (gset string))
    (chatroom_id : string) : gmap string (gset string) :=
  match subs !! chatroom_id with
  | Some members =>
      let members' := members ∖ {[user_id]} in
      if decide (members' = ∅) then delete chatroom_id subs
      else <[chatroom_id := members']> subs
  | None => subs
  end.

(** [for chatroom_id in list(self.chatroom_subscriptions.keys()): ...] *)
Definition purge_user (user_id : string) (subs : gmap string (gset string))
    : gmap string (gset string) :=
  foldl (discard_user user_id) subs (elements (dom subs)).

(** [disconnect] *)
Definition disconnect (now : Z) (ws : Z) (user_id : string)
    (m : ConnectionManager) : ConnectionManager :=
  let '(conns_map, subs) :=
    match active_connections m !! user_id with
    | Some conns =>
        let conns' := if decide (ws ∈ conns) then py_remove ws conns else conns in
        match conns' with
        | [] => (delete user_id (active_connections m),
                 purge_user user_id (chatroom_subscriptions m))
        | _ :: _ => (<[user_id := conns']> (active_connections m),
                     chatroom_subscriptions m)
        end
    | None => (active_connections m, chatroom_subscriptions m)
    end in
  let presence :=
    match conns_map !! user_id with
    | None => <[user_id := now]> (user_presence m)
    | Some _ => user_presence m
    end in
  mkManager conns_map subs presence (delete ws (connection_metadata m)).

(** [self.connection_metadata[websocket_id]["last_activity"] = now], guarded by
    [websocket_id in self.connection_metadata]. *)
Definition touch (now : Z) (ws : Z) (m : ConnectionManager) : ConnectionManager :=
  mkManager
    (active_connections m)
    (chatroom_subscriptions m)
    (user_presence m)
    (alter (λ md, mkMetadata (md_user_id md) (connected_at md) now) ws
       (connection_metadata m)).

(** The send loop of [send_personal_message]: the manager, the list
    [disconnected_connections] and the effects so far. *)
Definition send_step (w : World) (now : Z) (msg : json)
    (acc : ConnectionManager * list Z * list effect) (ws : Z)
    : ConnectionManager * list Z * list effect :=
  let '(m, disconnected, out) := acc in
  if send_ok w ws then (touch now ws m, disconnected, out ++ [Sent ws msg])
  else (m, disconnected ++ [ws], out ++ [SendFailed ws msg]).

(** [send_personal_message].  The function has no [return] statement: its
    value is [None]. *)
Definition send_personal_message (w : World) (now : Z) (msg : json)
    (user_id : string) (m : ConnectionManager)
    : pyval * (ConnectionManager * list effect) :=
  match active_connections m !! user_id with
  | Some conns =>
      let '(m1, disconnected, out) := foldl (send_step w now msg) (m, [], []) conns in
      (PyNone, (foldl (λ m' ws, disconnect now ws user_id m') m1 disconnected, out))
  | None => (PyNone, (m, []))
  end.

(** [asyncio.gather] over [tasks] with [return_exceptions=True], where every
    task is [send_personal_message(message, user_id)]. *)
Fixpoint gather (w : World) (now : Z) (msg : json) (tasks : list string)
    (m : ConnectionManager) : ConnectionManager * list effect :=
  match tasks with
  | [] => (m, [])
  | user_id :: rest =>
      let '(m1, out1) := (send_personal_message w now msg user_id m).2 in
      let '(m2, out2) := gather w now msg rest m1 in
      (m2, out1 ++ out2)
  end.

(** [if exclude_user and user_id == exclude_user: continue] *)
Definition excluded (exclude_user : option string) (user_id : string) : bool :=
  match exclude_user with
  | Some e => negb (String.eqb e "") && String.eqb user_id e
  | None => false
  end.

Definition is_user_online (user_id : string) (m : ConnectionManager) : bool :=
  bool_decide (is_Some (active_connections m !! user_id)).

(** [broadcast_to_chatroom] *)
Definition broadcast_to_chatroom (w : World) (now : Z) (msg : json)
    (chatroom_id : string) (exclude_user : option string)
    (m : ConnectionManager) : ConnectionManager * list effect :=
  match chatroom_subscriptions m !! chatroom_id with
  | Some members =>
      let tasks :=
        filter (λ u, excluded exclude_user u = false ∧ is_user_online u m = true)
               (elements members) in
      gather w now msg tasks m
  | None => (m, [])
  end.

(** [broadcast_to_all] *)
Definition broadcast_to_all (w : World) (now : Z) (msg : json)
    (exclude_user : option string) (m : ConnectionManager)
    : ConnectionManager * list effect :=
  gather w now msg
    (filter (λ u, excluded exclude_user u = false)
            (elements (dom (active_connections m)))) m.

(** The set [relevant_users] of [broadcast_user_status]: the union of the
    subscriber sets that hold [user_id], without [user_id] itself. *)
Definition relevant_users (user_id : string) (m : ConnectionManager) : gset string :=
  ⋃ (filter (λ subscribers : gset string, user_id ∈ subscribers)
            (map_to_list (chatroom_subscriptions m)).*2) ∖ {[user_id]}.

Definition status_message (now : Z) (status : string)
    (user_data : list (string * json)) : json :=
  JObj [("event", JStr ("user_" +:+ status));
        ("data", JObj (dict_set "timestamp" (JTime now)
                         (dict_set "status" (JStr status) user_data)))].

(** [broadcast_user_status] *)
Definition broadcast_user_status (w : World) (now : Z) (user_id : string)
    (status : string) (user_data : list (string * json))
    (m : ConnectionManager) : ConnectionManager * list effect :=
  let tasks :=
    filter (λ u, is_user_online u m = true)
           (elements (relevant_users user_id m)) in
  gather w now (status_message now status user_data) tasks m.

(** [join_chatroom] *)
Definition join_chatroom (user_id chatroom_id : string)
    (m : ConnectionManager) : ConnectionManager :=
  let members := default ∅ (chatroom_subscriptions m !! chatroom_id) in
  mkManager
    (active_connections m)
    (<[chatroom_id := members ∪ {[user_id]}]> (chatroom_subscriptions m))
    (user_presence m)
    (connection_metadata m).

(** [leave_chatroom] *)
Definition leave_chatroom (user_id chatroom_id : string)
    (m : ConnectionManager) : ConnectionManager :=
  mkManager
    (active_connections m)
    (discard_user user_id (chatroom_subscriptions m) chatroom_id)
    (user_presence m)
    (connection_metadata m).

Definition get_online_users (m : ConnectionManager) : list string :=
  elements (dom (active_connections m)).

Definition get_chatroom_members (chatroom_id : string)
    (m : ConnectionManager) : gset string :=
  default ∅ (chatroom_subscriptions m !! chatroom_id).

Definition get_user_connection_count (user_id : string)
    (m : ConnectionManager) : nat :=
  length (default [] (active_connections m !! user_id)).

(** The staleness test of [cleanup_stale_connections]:
    [(current_time - last_activity).total_seconds() / 60 > max_idle_minutes]. *)
Definition is_stale (now max_idle_minutes : Z) (md : Metadata) : bool :=
  (60 * max_idle_minutes <? now - last_activity md)%Z.

(** The list [stale_connections] the sweep builds before it closes anything. *)
Definition stale_connections (now max_idle_minutes : Z)
    (m : ConnectionManager) : list (Z * string) :=
  (λ p, (p.1, md_user_id p.2)) <$>
    filter (λ p, is_stale now max_idle_minutes p.2 = true)
           (map_to_list (connection_metadata m)).

(** ** The protocol handler ([router.py]) *)

Record User : Type := mkUser {
  user_id_of : string;       (* str(user.id) *)
  username : string;
  display_name : string
}.

(** [check_chatroom_membership]: a row of the membership table, whose ids are
    strings; the function answers [False] when the query fails. *)
Definition check_chatroom_membership (w : World) (user_id : string)
    (chatroom_id : json) : bool :=
  match chatroom_id with
  | JStr room => is_member w user_id room
  | _ => false
  end.

(** [publish_to_redis]: [redis_client.publish(channel, json.dumps(message))],
    the message exactly as the caller built it. *)
Definition publish_to_redis (w : World) (topic : json) (message : json)
    : list effect :=
  if redis_ok w then [Published topic message]
  else [Logged "error" "Failed to publish to Redis"].

Definition user_joined_message (now : Z) (user : User) (room : string) : json :=
  JObj [("event", JStr "user_joined");
        ("data", JObj [("user", JObj [("id", JStr (user_id_of user));
                                      ("username", JStr (username user));
                                      ("display_name", JStr (display_name user))]);
                       ("chatroom_id", JStr room);
                       ("timestamp", JTime now)])].

(** [handle_join_chatroom] *)
Definition handle_join_chatroom (w : World) (now : Z) (user : User)
    (event_data : json) (m : ConnectionManager)
    : ConnectionManager * list effect :=
  match event_data with
  | JObj fields =>
      let chatroom_id := dict_get "chatroom_id" fields in
      if negb (truthy chatroom_id) then (m, [])
      else if negb (check_chatroom_membership w (user_id_of user) chatroom_id)
      then (m, [Logged "warning" "User attempted to join chatroom without membership"])
      else
        match chatroom_id with
        | JStr room =>
            let m1 := join_chatroom (user_id_of user) room m in
            let '(m2, out) :=
              broadcast_to_chatroom w now (user_joined_message now user room)
                room (Some (user_id_of user)) m1 in
            (m2, out ++ publish_to_redis w chatroom_id
                          (JObj [("event", JStr "user_joined");
                                 ("user_id", JStr (user_id_of user));
                                 ("username", JStr (username user));
                                 ("timestamp", JTime now)]))
        | _ => (m, [Logged "error" "Failed to handle join chatroom"])
        end
  | _ => (m, [Logged "error" "Failed to handle join chatroom"])
  end.

Definition user_left_message (now : Z) (user_id : string) (chatroom_id : json)
    : json :=
  JObj [("event", JStr "user_left");
        ("data", JObj [("user_id", JStr user_id);
                       ("chatroom_id", chatroom_id);
                       ("timestamp", JTime now)])].

(** [handle_leave_chatroom].  An id that is not a string is no key of the
    subscription dict: looking it up finds nothing when it is hashable and
    raises [TypeError] when it is not. *)
Definition handle_leave_chatroom (w : World) (now : Z) (user_id : string)
    (event_data : json) (m : ConnectionManager)
    : ConnectionManager * list effect :=
  match event_data with
  | JObj fields =>
      let chatroom_id := dict_get "chatroom_id" fields in
      if negb (truthy chatroom_id) then (m, [])
      else
        let published :=
          publish_to_redis w chatroom_id
            (JObj [("event", JStr "user_left");
                   ("user_id", JStr user_id);
                   ("timestamp", JTime now)]) in
        match chatroom_id with
        | JStr room =>
            let m1 := leave_chatroom user_id room m in
            let '(m2, out) :=
              broadcast_to_chatroom w now (user_left_message now user_id chatroom_id)
                room (Some user_id) m1 in
            (m2, out ++ published)
        | _ =>
            if hashable chatroom_id then (m, published)
            else (m, [Logged "error" "Failed to leave chatroom";
                      Logged "error" "Failed to handle leave chatroom"])
        end
  | _ => (m, [Logged "error" "Failed to handle leave chatroom"])
  end.

Definition message_record (now : Z) (user : User) (chatroom_id content : json)
    (fields : list (string * json)) : json :=
  JObj [("id", JMsgId now (user_id_of user));
        ("chatroom_id", chatroom_id);
        ("user_id", JStr (user_id_of user));
        ("username", JStr (username user));
        ("display_name", JStr (display_name user));
        ("content", content);
        ("message_type", dict_get_default "message_type" (JStr "text") fields);
        ("timestamp", JTime now);
        ("client_id", dict_get "client_id" fields);
        ("edited", JBool false);
        ("reactions", JArr [])].

Definition message_received (message : json) : json :=
  JObj [("event", JStr "message_received");
        ("data", JObj [("message", message)])].

(** [handle_send_message] *)
Definition handle_send_message (w : World) (now : Z) (user : User)
    (event_data : json) (m : ConnectionManager)
    : ConnectionManager * list effect :=
  match event_data with
  | JObj fields =>
      let chatroom_id := dict_get "chatroom_id" fields in
      let content := dict_get "content" fields in
      if negb (truthy chatroom_id) || negb (truthy content) then (m, [])
      else if negb (check_chatroom_membership w (user_id_of user) chatroom_id)
      then (m, [Logged "warning" "User attempted to send message without membership"])
      else
        match chatroom_id with
        | JStr room =>
            let message := message_record now user chatroom_id content fields in
            let '(m1, out) :=
              broadcast_to_chatroom w now (message_received message) room None m in
            (m1, Stored message :: out ++
                 publish_to_redis w chatroom_id
                   (JObj [("event", JStr "message_received");
                          ("message", message)]))
        | _ => (m, [Logged "error" "Failed to handle send message"])
        end
  | _ => (m, [Logged "error" "Failed to handle send message"])
  end.

Definition typing_message (now : Z) (user : User) (chatroom_id : json)
    (is_typing : bool) : json :=
  JObj [("event", JStr "typing_indicator");
        ("data", JObj [("user_id", JStr (user_id_of user));
                       ("username", JStr (username user));
                       ("chatroom_id", chatroom_id);
                       ("is_typing", JBool is_typing);
                       ("timestamp", JTime now)])].

(** [handle_typing_indicator] *)
Definition handle_typing_indicator (w : World) (now : Z) (user : User)
    (event_data : json) (is_typing : bool) (m : ConnectionManager)
    : ConnectionManager * list effect :=
  match event_data with
  | JObj fields =>
      let chatroom_id := dict_get "chatroom_id" fields in
      if negb (truthy chatroom_id) then (m, [])
      else
        match chatroom_id with
        | JStr room =>
            broadcast_to_chatroom w now
              (typing_message now user chatroom_id is_typing)
              room (Some (user_id_of user)) m
        | _ =>
            if hashable chatroom_id then (m, [])
            else (m, [Logged "error" "Failed to handle typing indicator"])
        end
  | _ => (m, [Logged "error" "Failed to handle typing indicator"])
  end.

(** The states of a connection. *)
Inductive conn_state : Type :=
| CONNECTING
| AUTHENTICATED
| ACTIVE
| CLOSED.

(** What [await websocket.receive_text()] followed by [json.loads(data)] gives
    the loop: a text frame, with the value [json.loads] decodes it to ([None]
    when [json.loads] raises), the exception [WebSocketDisconnect], or another
    exception of the transport. *)
Inductive inbound : Type :=
| Text (decoded : option json)
| Disconnect
| TransportError.

Definition connected_message (now : Z) (user : User) : json :=
  JObj [("event", JStr "connected");
        ("data", JObj [("user_id", JStr (user_id_of user));
                       ("username", JStr (username user));
                       ("timestamp", JTime now)])].

Definition pong_message (now : Z) : json :=
  JObj [("event", JStr "pong");
        ("data", JObj [("timestamp", JTime now)])].

(** The [user_data] the endpoint passes to [broadcast_user_status]. *)
Definition online_user_data (u : User) : list (string * json) :=
  [("user_id", JStr (user_id_of u));
   ("username", JStr (username u));
   ("display_name", JStr (display_name u))].

Definition offline_user_data (u : User) : list (string * json) :=
  [("user_id", JStr (user_id_of u)); ("username", JStr (username u))].

(** The [finally] block of [websocket_endpoint]. *)
Definition endpoint_finally (w : World) (now : Z) (ws : Z) (user : option User)
    (m : ConnectionManager) : ConnectionManager * list effect :=
  match user with
  | Some u =>
      if String.eqb (user_id_of u) "" then (m, [])
      else
        broadcast_user_status w now (user_id_of u) "offline"
          (offline_user_data u) (disconnect now ws (user_id_of u) m)
  | None => (m, [])
  end.

(** The [except Exception] block of [websocket_endpoint], followed by the
    [finally] block. *)
Definition server_error (w : World) (now : Z) (ws : Z) (user : option User)
    (m : ConnectionManager) : conn_state * ConnectionManager * list effect :=
  let '(m1, out) := endpoint_finally w now ws user m in
  (CLOSED, m1, Logged "error" "WebSocket error" :: Closed ws 4000 :: out).

(** [websocket_endpoint] up to the receive loop.  [auth] is the user
    [get_user_from_token] returns ([None] when it raises) and [accept_ok]
    tells whether [websocket.accept()] returns; when it raises,
    [manager.connect] logs the error and raises it again. *)
Definition endpoint_open (w : World) (now : Z) (ws : Z) (auth : option User)
    (accept_ok : bool) (m : ConnectionManager)
    : conn_state * ConnectionManager * list effect :=
  match auth with
  | None => server_error w now ws None m
  | Some u =>
      if negb accept_ok then
        let '(st, m1, out) := server_error w now ws (Some u) m in
        (st, m1, Logged "error" "Failed to connect WebSocket" :: out)
      else
        let m1 := connect now ws (user_id_of u) m in
        if negb (send_ok w ws) then
          let '(st, m2, out) := server_error w now ws (Some u) m1 in
          (st, m2, SendFailed ws (connected_message now u) :: out)
        else
          let '(m2, out) :=
            broadcast_user_status w now (user_id_of u) "online"
              (online_user_data u) m1 in
          (ACTIVE, m2, Sent ws (connected_message now u) :: out)
  end.

(** [event_type == "..."]: only a string equals a string literal. *)
Definition py_eq_str (v : json) (s : string) : bool :=
  match v with
  | JStr s' => String.eqb s' s
  | _ => false
  end.

(** A call [logger.info(message, k1=..., k2=...)] (or [warning], [error]) of
    the structlog logger, with the names of its keyword arguments.  The
    logging methods take the message as their first positional parameter,
    which is named [event]: a call that passes [event] once more, as a
    keyword, raises [TypeError] and logs nothing.  The result tells whether
    the call returns. *)
Definition log_returns (keywords : list string) : bool :=
  negb (existsb (String.eqb "event") keywords).

(** The [if]/[elif] chain on [event_type] in the body of the receive loop.
    The last branch is the call
    [logger.warning("Unknown WebSocket event", event=event_type, user_id=user_id)]. *)
Definition dispatch (w : World) (now : Z) (ws : Z) (user : User)
    (envelope : list (string * json)) (m : ConnectionManager)
    : conn_state * ConnectionManager * list effect :=
  let stay (r : ConnectionManager * list effect) := (ACTIVE, r.1, r.2) in
  let event_type := dict_get "event" envelope in
  let event_data := dict_get_default "data" (JObj []) envelope in
  if py_eq_str event_type "join_chatroom" then
    stay (handle_join_chatroom w now user event_data m)
  else if py_eq_str event_type "leave_chatroom" then
    stay (handle_leave_chatroom w now (user_id_of user) event_data m)
  else if py_eq_str event_type "send_message" then
    stay (handle_send_message w now user event_data m)
  else if py_eq_str event_type "typing_start" then
    stay (handle_typing_indicator w now user event_data true m)
  else if py_eq_str event_type "typing_stop" then
    stay (handle_typing_indicator w now user event_data false m)
  else if py_eq_str event_type "ping" then
    if send_ok w ws then (ACTIVE, m, [Sent ws (pong_message now)])
    else
      let '(st, m1, out) := server_error w now ws (Some user) m in
      (st, m1, SendFailed ws (pong_message now) :: out)
  else if log_returns ["event"; "user_id"] then
    (ACTIVE, m, [Logged "warning" "Unknown WebSocket event"])
  else server_error w now ws (Some user) m.

(** One round of the receive loop of [websocket_endpoint], for a connection
    in state [ACTIVE].  A value that is not a dict has no [get]: the
    [AttributeError] leaves the loop like any other exception.  For a dict,
    the chain on [event_type] comes after the call
    [logger.info("WebSocket message received", user_id=user_id, event=event_type)],
    and an exception of that call leaves the loop in the same way: the inner
    [try] catches [WebSocketDisconnect] only. *)
Definition endpoint_recv (w : World) (now : Z) (ws : Z) (user : User)
    (frame : inbound) (m : ConnectionManager)
    : conn_state * ConnectionManager * list effect :=
  match frame with
  | Disconnect =>
      let '(m1, out) := endpoint_finally w now ws (Some user) m in
      (CLOSED, m1, out)
  | TransportError => server_error w now ws (Some user) m
  | Text None => server_error w now ws (Some user) m
  | Text (Some (JObj envelope)) =>
      if log_returns ["user_id"; "event"] then dispatch w now ws user envelope m
      else server_error w now ws (Some user) m
  | Text (Some _) => server_error w now ws (Some user) m
  end.

(** The receive loop: frames are taken in order, each with the instant it is
    handled at, until the connection is closed. *)
Fixpoint endpoint_loop (w : World) (ws : Z) (user : User)
    (frames : list (Z * inbound)) (m : ConnectionManager)
    : conn_state * ConnectionManager * list effect :=
  match frames with
  | [] => (ACTIVE, m, [])
  | (now, frame) :: rest =>
      let '(st, m1, out1) := endpoint_recv w now ws user frame m in
      match st with
      | ACTIVE =>
          let '(st2, m2, out2) := endpoint_loop w ws user rest m1 in
          (st2, m2, out1 ++ out2)
      | _ => (st, m1, out1)
      end
  end.

(** ** The rest of the manager *)

(** [get_connection_count]: the sum of the lengths of the connection lists. *)
Definition get_connection_count (m : ConnectionManager) : nat :=
  sum_list (length <$> (map_to_list (active_connections m)).*2).

(** The dict [get_stats] returns. *)
Record Stats : Type := mkStats {
  total_connections : nat;
  online_users : nat;
  active_chatrooms : nat;
  total_subscriptions : nat;
  user_presence_tracked : nat
}.

Definition get_stats (m : ConnectionManager) : Stats :=
  mkStats
    (get_connection_count m)
    (size (active_connections m))
    (size (chatroom_subscriptions m))
    (sum_list (size <$> (map_to_list (chatroom_subscriptions m)).*2))
    (size (user_presence m)).

(** The search [cleanup_stale_connections] makes for one stale connection:
    [for connections in self.active_connections.values()] with, inside, the
    loop over the list that closes and disconnects the first socket with the
    stale id and breaks.  [keys] is what is left of the iteration over the
    dict and [size0] the size the dict had when the iteration started: a dict
    iterator raises [RuntimeError] at its next step, the last one included,
    when the size of the dict has changed.  The third component of the result
    tells whether that happened. *)
Fixpoint close_stale (now : Z) (ws : Z) (user_id : string) (size0 : nat)
    (keys : list string) (m : ConnectionManager)
    : ConnectionManager * list effect * bool :=
  if negb (size (active_connections m) =? size0)%nat then (m, [], true)
  else
    match keys with
    | [] => (m, [], false)
    | k :: rest =>
        if decide (ws ∈ default [] (active_connections m !! k)) then
          let '(m1, out, raised) :=
            close_stale now ws user_id size0 rest (disconnect now ws user_id m) in
          (m1, Closed ws 4001 :: out, raised)
        else close_stale now ws user_id size0 rest m
    end.

(** [for websocket_id, user_id in stale_connections: ...]; the exception of
    one round ends the loop. *)
Fixpoint close_all_stale (now : Z) (stale : list (Z * string))
    (m : ConnectionManager) : ConnectionManager * list effect * bool :=
  match stale with
  | [] => (m, [], false)
  | (ws, user_id) :: rest =>
      let '(m1, out1, raised) :=
        close_stale now ws user_id (size (active_connections m))
          (elements (dom (active_connections m))) m in
      if raised then (m1, out1, true)
      else
        let '(m2, out2, raised2) := close_all_stale now rest m1 in
        (m2, out1 ++ out2, raised2)
  end.

(** [cleanup_stale_connections] *)
Definition cleanup_stale_connections (now max_idle_minutes : Z)
    (m : ConnectionManager) : ConnectionManager * list effect :=
  let '(m1, out, raised) :=
    close_all_stale now (stale_connections now max_idle_minutes m) m in
  (m1, out ++ if raised
              then [Logged "error" "Failed to cleanup stale connections"]
              else []).

(** ** Authentication ([get_user_from_token], [verify_token]) *)

(** The fields and properties class [Settings] of [core/config.py] declares.
    [settings.name] raises [AttributeError] for a name that is not an
    attribute of the object; [BaseSettings] adds none of the names read
    here. *)
Definition settings_attributes : list string :=
  ["APP_NAME"; "APP_VERSION"; "DEBUG"; "ENVIRONMENT"; "ENABLE_API_DOCS";
   "ENABLE_SECURITY_HEADERS"; "HOST"; "PORT"; "RELOAD";
   "SECRET_KEY"; "ALGORITHM"; "ACCESS_TOKEN_EXPIRE_MINUTES";
   "REFRESH_TOKEN_EXPIRE_DAYS";
   "POSTGRES_HOST"; "POSTGRES_PORT"; "POSTGRES_USER"; "POSTGRES_PASSWORD";
   "POSTGRES_DB";
   "MONGODB_HOST"; "MONGODB_PORT"; "MONGODB_USER"; "MONGODB_PASSWORD";
   "MONGODB_DB";
   "REDIS_HOST"; "REDIS_PORT"; "REDIS_PASSWORD"; "REDIS_DB";
   "CORS_ORIGINS"; "CORS_CREDENTIALS"; "CORS_METHODS"; "CORS_HEADERS";
   "RATE_LIMIT_ENABLED"; "RATE_LIMIT_STORAGE_URI";
   "SESSION_EXPIRE_SECONDS"; "REDIS_SESSION_PREFIX"; "REDIS_RATE_LIMIT_PREFIX";
   "WEBSOCKET_HEARTBEAT_INTERVAL"; "WEBSOCKET_MAX_CONNECTIONS_PER_USER";
   "WEBSOCKET_MESSAGE_QUEUE_SIZE";
   "UPLOAD_DIR"; "FILE_STORAGE_TYPE"; "MAX_FILE_SIZE"; "ALLOWED_FILE_TYPES";
   "AWS_ACCESS_KEY_ID"; "AWS_SECRET_ACCESS_KEY"; "AWS_REGION"; "S3_BUCKET_NAME";
   "OPENAI_API_KEY"; "OPENAI_MODEL"; "OPENAI_MAX_TOKENS"; "OPENAI_TEMPERATURE";
   "SEARCH_RESULTS_PER_PAGE"; "SEARCH_MAX_RESULTS";
   "CACHE_TTL_SEARCH"; "CACHE_TTL_SUMMARY";
   "LOG_LEVEL"; "LOG_FORMAT"; "ENABLE_METRICS";
   "WORKERS"; "ACCESS_LOG"; "ENCRYPTION_KEY";
   "postgres_url"; "mongodb_url"; "redis_url"].

(** Does [settings.name] return? *)
Definition settings_has (name : string) : bool :=
  existsb (String.eqb name) settings_attributes.

(** [datetime.fromtimestamp(exp)] for an integer [exp] on a server whose local
    time is [tz] seconds ahead of UTC: the naive local time, as seconds since
    the epoch, or [None] when it raises.  It raises [TypeError] for what is
    not a number (a bool is an integer in Python) and [ValueError] when the
    local time falls after 9999-12-31 23:59:59 or before 0001-01-02 00:00:00:
    CPython looks one day back for a repeated local hour, which puts the
    first day of year 1 out of range too. *)
Definition datetime_min : Z := -62135510400.
Definition datetime_max : Z := 253402300799.

Definition fromtimestamp (tz : Z) (exp : json) : option Z :=
  let local (n : Z) :=
    if ((datetime_min <=? n + tz) && (n + tz <=? datetime_max))%Z
    then Some (n + tz)%Z else None in
  match exp with
  | JNum n => local n
  | JBool b => local (Z.b2z b)
  | _ => None
  end.

(** [verify_token] of [core/security.py].  [decoded] is the payload
    [jwt.decode] returns, [None] when it raises [JWTError], the one exception
    the function catches, logs and replaces; [tz] is the offset of the
    server's local time from UTC in seconds.  The first component of the
    result is [None] when the function raises.  The arguments of [jwt.decode]
    are evaluated before the call: reading [settings.JWT_SECRET_KEY] comes
    first. *)
Definition verify_token (now tz : Z) (decoded : option (list (string * json)))
    (token_type : string) : option (list (string * json)) * list effect :=
  if negb (settings_has "JWT_SECRET_KEY") then (None, [])
  else
    match decoded with
    | None => (None, [Logged "error" "JWT verification failed"])
    | Some payload =>
        if negb (py_eq_str (dict_get "type" payload) token_type) then (None, [])
        else
          match fromtimestamp tz (dict_get "exp" payload) with
          | Some exp => if (exp <? now)%Z then (None, []) else (Some payload, [])
          | None => (None, [])
          end
    end.

(** [get_user_from_token].  [users] is the user table: the row with the given
    id and its [is_active] column; ids are strings, so a [sub] that is not a
    string selects no row.  The first component of the result is [None] when
    the function raises, which it does after logging the error. *)
Definition get_user_from_token (now tz : Z)
    (users : string → option (User * bool))
    (decoded : option (list (string * json))) : option User * list effect :=
  let failed (out : list effect) : option User * list effect :=
    (None, out ++ [Logged "error" "Token verification failed"]) in
  let '(verified, out) := verify_token now tz decoded "access" in
  match verified with
  | None => failed out
  | Some payload =>
      let sub := dict_get "sub" payload in
      if negb (truthy sub) then failed out
      else
        match sub with
        | JStr id =>
            match users id with
            | Some (user, true) => (Some user, out)
            | _ => failed out
            end
        | _ => failed out
        end
  end.

(** [websocket_endpoint] from the token to the receive loop. *)
Definition endpoint_connect (w : World) (now tz : Z)
    (users : string → option (User * bool))
    (decoded : option (list (string * json))) (ws : Z) (accept_ok : bool)
    (m : ConnectionManager) : conn_state * ConnectionManager * list effect :=
  let '(auth, out0) := get_user_from_token now tz users decoded in
  let '(st, m1, out) := endpoint_open w now ws auth accept_ok m in
  (st, m1, out0 ++ out).

(** ** Vocabulary of the properties *)

(** What one round of the purge makes of a subscriber set: [None] when the
    entry is deleted. *)
Definition discard_from (user_id : string) (members : gset string)
    : option (gset string) :=
  if decide (members ∖ {[user_id]} = ∅) then None
  else Some (members ∖ {[user_id]}).

(** No chatroom entry holds an empty set, no user entry an empty list. *)
Definition rooms_nonempty (m : ConnectionManager) : Prop :=
  ∀ r members, chatroom_subscriptions m !! r = Some members → members ≠ ∅.

Definition conns_nonempty (m : ConnectionManager) : Prop :=
  ∀ u conns, active_connections m !! u = Some conns → conns ≠ [].

Definition well_formed (m : ConnectionManager) : Prop :=
  rooms_nonempty m ∧ conns_nonempty m.

(** What the send loop does with one socket. *)
Definition send_effect (w : World) (msg : json) (ws : Z) : effect :=
  if send_ok w ws then Sent ws msg else SendFailed ws msg.

Definition touch_all (now : Z) (conns : list Z) (m : ConnectionManager)
    : ConnectionManager :=
  foldl (λ m' ws, touch now ws m') m conns.

Definition disconnect_all (now : Z) (u : string) (conns : list Z)
    (m : ConnectionManager) : ConnectionManager :=
  foldl (λ m' ws, disconnect now ws u m') m conns.

(** A call of the manager, as the protocol handler, the sweep or the manager
    itself makes it. *)
Inductive manager_op : Type :=
| OpConnect (now ws : Z) (user_id : string)
| OpDisconnect (now ws : Z) (user_id : string)
| OpJoin (user_id chatroom_id : string)
| OpLeave (user_id chatroom_id : string)
| OpSendPersonal (w : World) (now : Z) (msg : json) (user_id : string)
| OpBroadcastChatroom (w : World) (now : Z) (msg : json)
    (chatroom_id : string) (exclude_user : option string)
| OpBroadcastAll (w : World) (now : Z) (msg : json) (exclude_user : option string)
| OpBroadcastStatus (w : World) (now : Z) (user_id status : string)
    (user_data : list (string * json)).

Definition apply_op (op : manager_op) (m : ConnectionManager)
    : ConnectionManager :=
  match op with
  | OpConnect now ws u => connect now ws u m
  | OpDisconnect now ws u => disconnect now ws u m
  | OpJoin u r => join_chatroom u r m
  | OpLeave u r => leave_chatroom u r m
  | OpSendPersonal w now msg u => (send_personal_message w now msg u m).2.1
  | OpBroadcastChatroom w now msg r ex => (broadcast_to_chatroom w now msg r ex m).1
  | OpBroadcastAll w now msg ex => (broadcast_to_all w now msg ex m).1
  | OpBroadcastStatus w now u status data =>
      (broadcast_user_status w now u status data m).1
  end.

Definition run_ops (ops : list manager_op) (m : ConnectionManager)
    : ConnectionManager :=
  foldl (λ m' op, apply_op op m') m ops.

(** The connections the registry holds for a user. *)
Definition conns_of (m : ConnectionManager) (user_id : string) : list Z :=
  default [] (active_connections m !! user_id).

(** The writes of a broadcast: every task writes to every connection its user
    has in the registry. *)
Definition deliveries (w : World) (msg : json) (m : ConnectionManager)
    (tasks : list string) : list effect :=
  tasks ≫= (λ u, send_effect w msg <$> conns_of m u).

(** The frames a socket was written, in order. *)
Definition received (ws : Z) (out : list effect) : list json :=
  omap (λ e, match e with
             | Sent ws' msg => if decide (ws' = ws) then Some msg else None
             | _ => None
             end) out.

(** What was published on the broadcast channel, in order. *)
Definition published (out : list effect) : list (json * json) :=
  omap (λ e, match e with
             | Published topic msg => Some (topic, msg)
             | _ => None
             end) out.

(** [v[k]] for a JSON object [v]. *)
Definition field (k : string) (v : json) : json :=
  match v with
  | JObj fields => dict_get k fields
  | _ => JNull
  end.

(** The top-level keys of a published envelope. *)
Definition envelope_keys (v : json) : list string :=
  match v with
  | JObj fields => dict_keys fields
  | _ => []
  end.

(** Two users are subscribed to a common chatroom. *)
Definition shares_room (u v : string) (m : ConnectionManager) : Prop :=
  ∃ r members,
    chatroom_subscriptions m !! r = Some members ∧ u ∈ members ∧ v ∈ members.

(** A socket is registered once, under one user. *)
Definition exclusive (m : ConnectionManager) : Prop :=
  (∀ u, NoDup (conns_of m u)) ∧
  (∀ u v ws, ws ∈ conns_of m u → ws ∈ conns_of m v → u = v).

(** A frame the loop cannot read as an envelope: [json.loads] raises, or
    returns something that is not a dict. *)
Definition malformed (frame : inbound) : Prop :=
  match frame with
  | Text None => True
  | Text (Some (JObj _)) => False
  | Text (Some _) => True
  | _ => False
  end.

(** A decoded value that is not a dict. *)
Definition not_a_dict (v : json) : Prop :=
  match v with
  | JObj _ => False
  | _ => True
  end.

(** ** Scenarios *)

(** One step of a run of the server: a connection is opened, or a connection
    in the receive loop gets its next frame. *)
Inductive step : Type :=
| Open (now ws : Z) (auth : option User) (accept_ok : bool)
| Recv (now ws : Z) (user : User) (frame : inbound).

Definition run_step (w : World) (s : step) (m : ConnectionManager)
    : ConnectionManager * list effect :=
  match s with
  | Open now ws auth accept_ok =>
      let r := endpoint_open w now ws auth accept_ok m in (r.1.2, r.2)
  | Recv now ws user frame =>
      let r := endpoint_recv w now ws user frame m in (r.1.2, r.2)
  end.

Definition all_up : World := mkWorld (λ _, true) (λ _ _, true) true.

Definition broken (ws0 : Z) : World :=
  mkWorld (λ ws, negb (ws =? ws0)%Z) (λ _ _, true) true.

Definition alice : User := mkUser "A" "alice" "Alice".
Definition bob : User := mkUser "B" "bob" "Bob".
Definition carol : User := mkUser "C" "carol" "Carol".

Definition send_frame (room content : string) : inbound :=
  Text (Some (JObj [("event", JStr "send_message");
                    ("data", JObj [("chatroom_id", JStr room);
                                   ("content", JStr content)])])).

Definition ping_frame : inbound :=
  Text (Some (JObj [("event", JStr "ping")])).

(** Alice holds the sockets 11 and 12 and is subscribed to "roomA" and
    "roomB"; Bob (socket 21) is in "roomA", Carol (socket 31) in "roomB".
    The state is built by calls of the manager: the four connections, then
    the subscriptions, Bob's and Carol's each followed by the [user_joined]
    broadcast to the room that [handle_join_chatroom] makes after it. *)
Definition two_rooms_ops : list manager_op :=
  [OpConnect 1 11 "A";
   OpConnect 2 12 "A";
   OpConnect 3 21 "B";
   OpConnect 4 31 "C";
   OpJoin "A" "roomA";
   OpJoin "A" "roomB";
   OpJoin "B" "roomA";
   OpBroadcastChatroom all_up 7 (user_joined_message 7 bob "roomA")
     "roomA" (Some "B");
   OpJoin "C" "roomB";
   OpBroadcastChatroom all_up 8 (user_joined_message 8 carol "roomB")
     "roomB" (Some "C")].

Definition two_rooms : ConnectionManager :=
  run_ops two_rooms_ops new_manager.

(** Alice and Bob, one socket each, both in "general"; Alice's socket was
    written the [user_joined] of Bob at instant 4. *)
Definition general_room : ConnectionManager :=
  run_ops
    [OpConnect 1 11 "A";
     OpConnect 2 21 "B";
     OpJoin "A" "general";
     OpJoin "B" "general";
     OpBroadcastChatroom all_up 4 (user_joined_message 4 bob "general")
       "general" (Some "B")] new_manager.

(** A user with the two sockets 11 and 12. *)
Definition two_sockets : ConnectionManager :=
  connect 2 12 "U" (connect 1 11 "U" new_manager).

(** A user with the single socket 11, connected at instant 0. *)
Definition one_socket : ConnectionManager :=
  connect 0 11 "A" new_manager.

(** ** Vocabulary of the further properties *)

(** A socket is in the registry, under some user. *)
Definition registered (ws : Z) (m : ConnectionManager) : Prop :=
  ∃ u, ws ∈ conns_of m u.

(** Every [connect] of a run registers a socket that is not in the registry
    at that point. *)
Fixpoint fresh_connects (ops : list manager_op) (m : ConnectionManager) : Prop :=
  match ops with
  | [] => True
  | op :: rest =>
      match op with
      | OpConnect _ ws _ => ¬ registered ws m
      | _ => True
      end ∧ fresh_connects rest (apply_op op m)
  end.

(** The registry of [m'] holds, for every user, a sublist of what the
    registry of [m] holds. *)
Definition shrinks (m' m : ConnectionManager) : Prop :=
  ∀ v, conns_of m' v `sublist_of` conns_of m v.

(** The subscriptions of [m'] are those of [m], possibly without some
    users. *)
Definition unsubscribes (m' m : ConnectionManager) : Prop :=
  ∀ r, get_chatroom_members r m' ⊆ get_chatroom_members r m.

(** The metadata of a registered socket names the user it is registered
    under. *)
Definition metadata_consistent (m : ConnectionManager) : Prop :=
  ∀ ws md v,
    connection_metadata m !! ws = Some md → ws ∈ conns_of m v →
    md_user_id md = v.

(** The sockets a run of effects closed. *)
Definition closed_sockets (out : list effect) : list Z :=
  omap (λ e, match e with Closed ws _ => Some ws | _ => None end) out.

(** What was handed to the message store. *)
Definition stored (out : list effect) : list json :=
  omap (λ e, match e with Stored msg => Some msg | _ => None end) out.

(** A sample user table and the payload of a sample access token. *)
Definition user_table (id : string) : option (User * bool) :=
  if String.eqb id "A" then Some (alice, true)
  else if String.eqb id "B" then Some (bob, false)
  else None.

Definition access_token (sub : string) (exp : Z) : option (list (string * json)) :=
  Some [("sub", JStr sub); ("type", JStr "access"); ("exp", JNum exp)].

(** A world in which the membership table lists nobody. *)
Definition nobody_listed : World := mkWorld (λ _, true) (λ _ _, false) true.

(** * Properties *)

(** ** The cascading purge *)

Lemma discard_user_lookup u (subs : gmap string (gset string)) k r :
  discard_user u subs k !! r =
    if decide (r = k) then subs !! k ≫= discard_from u else subs !! r.
Proof.
  unfold discard_user, discard_from.
  destruct (subs !! k) as [s|] eqn:Hk; simpl.
  - destruct (decide (s ∖ {[u]} = ∅)); case_decide; subst;
      by simplify_map_eq.
  - case_decide; by subst.
Qed.

Lemma purge_loop_lookup u (keys : list string) :
  ∀ (subs : gmap string (gset string)) r,
    NoDup keys →
    foldl (discard_user u) subs keys !! r =
      if decide (r ∈ keys) then subs !! r ≫= discard_from u else subs !! r.
Proof.
  induction keys as [|k keys IH]; intros subs r Hnd; cbn [foldl].
  - case_decide; [set_solver|done].
  - apply NoDup_cons in Hnd as [Hk Hnd].
    rewrite IH; [|done]. rewrite !discard_user_lookup.
    destruct (decide (r = k)) as [->|Hne]; repeat case_decide;
      try done; set_solver.
Qed.

Lemma purge_user_lookup u (subs : gmap string (gset string)) r :
  purge_user u subs !! r = subs !! r ≫= discard_from u.
Proof.
  unfold purge_user. rewrite purge_loop_lookup; [|apply NoDup_elements].
  case_decide as Hr; [done|].
  rewrite elem_of_elements elem_of_dom in Hr.
  destruct (subs !! r) eqn:E; [|done]. exfalso. apply Hr. eauto.
Qed.

Lemma discard_from_Some u s s' :
  discard_from u s = Some s' → s' = s ∖ {[u]} ∧ s' ≠ ∅.
Proof. unfold discard_from. case_decide; naive_solver. Qed.

Lemma purge_user_not_member u (subs : gmap string (gset string)) r s :
  purge_user u subs !! r = Some s → u ∉ s.
Proof.
  rewrite purge_user_lookup. destruct (subs !! r) as [s0|]; [|done]. simpl.
  intros [-> _]%discard_from_Some. set_solver.
Qed.

(** ** Well-formed manager states *)

Lemma discard_user_nonempty u (subs : gmap string (gset string)) k :
  (∀ r s, subs !! r = Some s → s ≠ ∅) →
  ∀ r s, discard_user u subs k !! r = Some s → s ≠ ∅.
Proof.
  intros H r s. rewrite discard_user_lookup. case_decide; [|by apply H].
  destruct (subs !! k); [|done]. simpl. by intros [_ ?]%discard_from_Some.
Qed.

Lemma purge_user_nonempty u (subs : gmap string (gset string)) r s :
  purge_user u subs !! r = Some s → s ≠ ∅.
Proof.
  rewrite purge_user_lookup. destruct (subs !! r); [|done]. simpl.
  by intros [_ ?]%discard_from_Some.
Qed.

Lemma connect_rooms now ws u m :
  chatroom_subscriptions (connect now ws u m) = chatroom_subscriptions m.
Proof. done. Qed.

Lemma connect_conns_nonempty now ws u m :
  conns_nonempty m → conns_nonempty (connect now ws u m).
Proof.
  intros H u' conns. simpl. rewrite lookup_insert. case_decide.
  - intros [= <-] [_ [=]]%app_eq_nil.
  - apply H.
Qed.

(** ** The three ways [disconnect] goes *)

Lemma py_remove_not_in ws (l : list Z) : ws ∉ l → py_remove ws l = l.
Proof.
  induction l as [|c l IH]; [done|]. intros Hin. simpl.
  destruct (decide (ws = c)) as [->|]; [set_solver|].
  f_equal. apply IH. set_solver.
Qed.

Lemma py_remove_guard ws (l : list Z) :
  (if decide (ws ∈ l) then py_remove ws l else l) = py_remove ws l.
Proof. destruct (decide (ws ∈ l)); [done|by rewrite py_remove_not_in]. Qed.

Lemma disconnect_offline now ws u m :
  active_connections m !! u = None →
  disconnect now ws u m =
    mkManager (active_connections m) (chatroom_subscriptions m)
      (<[u := now]> (user_presence m)) (delete ws (connection_metadata m)).
Proof. intros Hu. unfold disconnect. by rewrite Hu /= Hu. Qed.

Lemma disconnect_last now ws u m conns :
  active_connections m !! u = Some conns →
  py_remove ws conns = [] →
  disconnect now ws u m =
    mkManager (delete u (active_connections m))
      (purge_user u (chatroom_subscriptions m))
      (<[u := now]> (user_presence m)) (delete ws (connection_metadata m)).
Proof.
  intros Hu Hl. unfold disconnect.
  by rewrite Hu py_remove_guard Hl /= lookup_delete_eq.
Qed.

Lemma disconnect_not_last now ws u m conns c rest :
  active_connections m !! u = Some conns →
  py_remove ws conns = c :: rest →
  disconnect now ws u m =
    mkManager (<[u := c :: rest]> (active_connections m))
      (chatroom_subscriptions m)
      (user_presence m) (delete ws (connection_metadata m)).
Proof.
  intros Hu Hl. unfold disconnect.
  by rewrite Hu py_remove_guard Hl /= lookup_insert_eq.
Qed.

(** Case analysis on a call of [disconnect]. *)
Ltac disconnect_cases now ws u m :=
  let l := fresh "conns" in
  let Hu := fresh "Hconns" in
  let Hl := fresh "Hrest" in
  destruct (active_connections m !! u) as [l|] eqn:Hu;
  [ destruct (py_remove ws l) eqn:Hl;
    [ rewrite (disconnect_last now ws u m l Hu Hl)
    | rewrite (disconnect_not_last now ws u m l _ _ Hu Hl) ]
  | rewrite (disconnect_offline now ws u m Hu) ].

Lemma disconnect_conns_nonempty now ws u m :
  conns_nonempty m → conns_nonempty (disconnect now ws u m).
Proof.
  intros H u' l'. disconnect_cases now ws u m; simpl; [| |by apply H].
  - rewrite lookup_delete. destruct (decide (u = u')); [done|apply H].
  - rewrite lookup_insert. destruct (decide (u = u')); [by intros [= <-]|apply H].
Qed.

Lemma disconnect_rooms_nonempty now ws u m :
  rooms_nonempty m → rooms_nonempty (disconnect now ws u m).
Proof.
  intros H r s. disconnect_cases now ws u m; simpl;
    [apply purge_user_nonempty|apply H|apply H].
Qed.

Lemma join_rooms_nonempty u r m :
  rooms_nonempty m → rooms_nonempty (join_chatroom u r m).
Proof.
  intros H r' s. simpl. rewrite lookup_insert. case_decide; [|apply H].
  intros [= <-]. set_solver.
Qed.

Lemma leave_rooms_nonempty u r m :
  rooms_nonempty m → rooms_nonempty (leave_chatroom u r m).
Proof. intros H r' s. simpl. by apply discard_user_nonempty. Qed.

(** ** The send loop *)

Lemma send_loop_spec w now msg (conns : list Z) :
  ∀ m (dis : list Z) out,
    foldl (send_step w now msg) (m, dis, out) conns =
      (touch_all now (filter (λ c, send_ok w c = true) conns) m,
       dis ++ filter (λ c, send_ok w c = false) conns,
       out ++ (send_effect w msg <$> conns)).
Proof.
  induction conns as [|c conns IH]; intros m dis out; cbn [foldl fmap list_fmap].
  - by rewrite !app_nil_r.
  - unfold send_step at 2, send_effect at 1.
    destruct (send_ok w c) eqn:Hc; rewrite IH.
    + rewrite filter_cons_True // filter_cons_False; [|congruence].
      by rewrite -app_assoc.
    + rewrite filter_cons_False; [|congruence]. rewrite filter_cons_True //.
      by rewrite -!app_assoc.
Qed.

Lemma send_personal_message_online w now msg u m conns :
  active_connections m !! u = Some conns →
  send_personal_message w now msg u m =
    (PyNone,
     (disconnect_all now u (filter (λ c, send_ok w c = false) conns)
        (touch_all now (filter (λ c, send_ok w c = true) conns) m),
      send_effect w msg <$> conns)).
Proof.
  intros Hu. unfold send_personal_message. by rewrite Hu send_loop_spec.
Qed.

Lemma send_personal_message_offline w now msg u m :
  active_connections m !! u = None →
  send_personal_message w now msg u m = (PyNone, (m, [])).
Proof. intros Hu. unfold send_personal_message. by rewrite Hu. Qed.

Lemma touch_all_conns now conns m :
  active_connections (touch_all now conns m) = active_connections m.
Proof. revert m. induction conns as [|c l IH]; intros m; [done|]. simpl. by rewrite IH. Qed.

Lemma touch_all_rooms now conns m :
  chatroom_subscriptions (touch_all now conns m) = chatroom_subscriptions m.
Proof. revert m. induction conns as [|c l IH]; intros m; [done|]. simpl. by rewrite IH. Qed.

Lemma touch_all_presence now conns m :
  user_presence (touch_all now conns m) = user_presence m.
Proof. revert m. induction conns as [|c l IH]; intros m; [done|]. simpl. by rewrite IH. Qed.

Lemma disconnect_all_conns_nonempty now u conns m :
  conns_nonempty m → conns_nonempty (disconnect_all now u conns m).
Proof.
  revert m. induction conns as [|c l IH]; intros m H; [done|].
  simpl. by apply IH, disconnect_conns_nonempty.
Qed.

Lemma disconnect_all_rooms_nonempty now u conns m :
  rooms_nonempty m → rooms_nonempty (disconnect_all now u conns m).
Proof.
  revert m. induction conns as [|c l IH]; intros m H; [done|].
  simpl. by apply IH, disconnect_rooms_nonempty.
Qed.

Lemma send_personal_message_well_formed w now msg u m :
  well_formed m → well_formed (send_personal_message w now msg u m).2.1.
Proof.
  intros [Hr Hc].
  destruct (active_connections m !! u) as [conns|] eqn:Hu.
  - rewrite (send_personal_message_online _ _ _ _ _ _ Hu). simpl. split.
    + apply disconnect_all_rooms_nonempty. intros r s.
      rewrite touch_all_rooms. apply Hr.
    + apply disconnect_all_conns_nonempty. intros u' l.
      rewrite touch_all_conns. apply Hc.
  - by rewrite send_personal_message_offline.
Qed.

Lemma gather_well_formed w now msg tasks :
  ∀ m, well_formed m → well_formed (gather w now msg tasks m).1.
Proof.
  induction tasks as [|u tasks IH]; intros m Hm; [done|]. simpl.
  pose proof (send_personal_message_well_formed w now msg u m Hm) as H1.
  destruct (send_personal_message w now msg u m) as [ret [m1 out1]]. simpl in *.
  specialize (IH m1 H1). by destruct (gather w now msg tasks m1).
Qed.

Lemma broadcast_to_chatroom_well_formed w now msg r ex m :
  well_formed m → well_formed (broadcast_to_chatroom w now msg r ex m).1.
Proof.
  intros Hm. unfold broadcast_to_chatroom.
  destruct (chatroom_subscriptions m !! r); [|done].
  by apply gather_well_formed.
Qed.

Lemma broadcast_to_all_well_formed w now msg ex m :
  well_formed m → well_formed (broadcast_to_all w now msg ex m).1.
Proof. intros Hm. by apply gather_well_formed. Qed.

Lemma broadcast_user_status_well_formed w now u status data m :
  well_formed m → well_formed (broadcast_user_status w now u status data m).1.
Proof. intros Hm. by apply gather_well_formed. Qed.

Lemma connect_well_formed now ws u m :
  well_formed m → well_formed (connect now ws u m).
Proof. intros [Hr Hc]. split; [done|by apply connect_conns_nonempty]. Qed.

Lemma disconnect_well_formed now ws u m :
  well_formed m → well_formed (disconnect now ws u m).
Proof.
  intros [Hr Hc].
  split; [by apply disconnect_rooms_nonempty|by apply disconnect_conns_nonempty].
Qed.

Lemma join_well_formed u r m :
  well_formed m → well_formed (join_chatroom u r m).
Proof. intros [Hr Hc]. split; [by apply join_rooms_nonempty|done]. Qed.

Lemma leave_well_formed u r m :
  well_formed m → well_formed (leave_chatroom u r m).
Proof. intros [Hr Hc]. split; [by apply leave_rooms_nonempty|done]. Qed.

Lemma new_manager_well_formed : well_formed new_manager.
Proof. split; intros k v; simpl; by rewrite lookup_empty. Qed.

Lemma online_iff_connection_count u m :
  conns_nonempty m →
  is_user_online u m = true ↔ (0 < get_user_connection_count u m)%nat.
Proof.
  intros Hc. unfold is_user_online, get_user_connection_count.
  rewrite bool_decide_eq_true.
  destruct (active_connections m !! u) as [conns|] eqn:Hu; simpl.
  - split; [intros _|by eauto].
    specialize (Hc u conns Hu). destruct conns; [done|simpl; lia].
  - split; [by intros [? ?]|lia].
Qed.

Lemma apply_op_well_formed op m : well_formed m → well_formed (apply_op op m).
Proof.
  intros Hm. destruct op; simpl.
  - by apply connect_well_formed.
  - by apply disconnect_well_formed.
  - by apply join_well_formed.
  - by apply leave_well_formed.
  - by apply send_personal_message_well_formed.
  - by apply broadcast_to_chatroom_well_formed.
  - by apply broadcast_to_all_well_formed.
  - by apply broadcast_user_status_well_formed.
Qed.

Lemma run_ops_well_formed ops :
  ∀ m, well_formed m → well_formed (run_ops ops m).
Proof.
  induction ops as [|op ops IH]; intros m Hm; [done|].
  simpl. by apply IH, apply_op_well_formed.
Qed.

(** C10.  Whatever sequence of manager calls (connect, disconnect, join, leave,
    deliveries with their failure cleanup, broadcasts) is run on a fresh
    manager, every chatroom key of the subscription index maps to a non-empty
    set, every user key of the registry maps to a non-empty connection list,
    and a user is online exactly when the registry holds at least one
    connection for them. *)
Theorem C10_entries_never_empty (ops : list manager_op) :
  let m := run_ops ops new_manager in
  rooms_nonempty m ∧ conns_nonempty m ∧
  ∀ u, is_user_online u m = true ↔ (0 < get_user_connection_count u m)%nat.
Proof.
  intros m.
  destruct (run_ops_well_formed ops new_manager new_manager_well_formed)
    as [Hr Hc].
  repeat split; try done; by apply online_iff_connection_count.
Qed.

(** ** What a delivery leaves in the registry *)

Lemma disconnect_conns_same now ws u m :
  default [] (active_connections (disconnect now ws u m) !! u) =
    py_remove ws (default [] (active_connections m !! u)).
Proof.
  disconnect_cases now ws u m; simpl.
  - by rewrite lookup_delete_eq.
  - by rewrite lookup_insert_eq.
  - by rewrite Hconns.
Qed.

Lemma disconnect_conns_other now ws u m u' :
  u' ≠ u →
  active_connections (disconnect now ws u m) !! u' = active_connections m !! u'.
Proof.
  intros Hne. disconnect_cases now ws u m; simpl; [| |done].
  - by rewrite lookup_delete_ne.
  - by rewrite lookup_insert_ne.
Qed.

Lemma disconnect_all_conns_same now u (failed : list Z) :
  ∀ m, default [] (active_connections (disconnect_all now u failed m) !! u) =
         foldl (λ l ws, py_remove ws l) (default [] (active_connections m !! u)) failed.
Proof.
  induction failed as [|c failed IH]; intros m; [done|].
  simpl. by rewrite IH disconnect_conns_same.
Qed.

Lemma disconnect_all_conns_other now u (failed : list Z) u' :
  u' ≠ u →
  ∀ m, active_connections (disconnect_all now u failed m) !! u' =
         active_connections m !! u'.
Proof.
  intros Hne. induction failed as [|c failed IH]; intros m; [done|].
  simpl. by rewrite IH disconnect_conns_other.
Qed.

Lemma py_remove_all_cons (c : Z) (failed : list Z) :
  ∀ l, c ∉ failed →
    foldl (λ l' ws, py_remove ws l') (c :: l) failed =
      c :: foldl (λ l' ws, py_remove ws l') l failed.
Proof.
  induction failed as [|x failed IH]; intros l Hc; [done|].
  simpl. destruct (decide (x = c)) as [->|]; [set_solver|].
  apply IH. set_solver.
Qed.

Lemma py_remove_failed w (conns : list Z) :
  foldl (λ l ws, py_remove ws l) conns (filter (λ c, send_ok w c = false) conns) =
    filter (λ c, send_ok w c = true) conns.
Proof.
  induction conns as [|c conns IH]; [done|].
  destruct (send_ok w c) eqn:Hc.
  - rewrite filter_cons_False; [|congruence]. rewrite filter_cons_True //.
    rewrite py_remove_all_cons; [by rewrite IH|].
    intros [Hf _]%list_elem_of_filter. congruence.
  - rewrite filter_cons_True // filter_cons_False; [|congruence].
    simpl. by rewrite decide_True.
Qed.

Lemma send_personal_message_conns_same w now msg u m conns :
  active_connections m !! u = Some conns →
  default [] (active_connections (send_personal_message w now msg u m).2.1 !! u) =
    filter (λ c, send_ok w c = true) conns.
Proof.
  intros Hu. rewrite (send_personal_message_online _ _ _ _ _ _ Hu). simpl.
  by rewrite disconnect_all_conns_same touch_all_conns Hu /= py_remove_failed.
Qed.

Lemma send_personal_message_conns_other w now msg u m u' :
  u' ≠ u →
  active_connections (send_personal_message w now msg u m).2.1 !! u' =
    active_connections m !! u'.
Proof.
  intros Hne. destruct (active_connections m !! u) as [conns|] eqn:Hu.
  - rewrite (send_personal_message_online _ _ _ _ _ _ Hu). simpl.
    by rewrite disconnect_all_conns_other // touch_all_conns.
  - by rewrite send_personal_message_offline.
Qed.

(** C3, as the code has it.  A delivery to a user with a registered connection
    list writes to every connection of the list once, in order, and returns
    [None]; the connections whose write failed are removed from the registry,
    the others stay, and no other user's connections change. *)
Theorem C3_delivery_isolated w now msg u m conns :
  active_connections m !! u = Some conns →
  let r := send_personal_message w now msg u m in
  r.1 = PyNone ∧
  r.2.2 = (send_effect w msg <$> conns) ∧
  default [] (active_connections r.2.1 !! u) =
    filter (λ c, send_ok w c = true) conns ∧
  ∀ u', u' ≠ u → active_connections r.2.1 !! u' = active_connections m !! u'.
Proof.
  intros Hu r. split_and!.
  - subst r. by rewrite (send_personal_message_online _ _ _ _ _ _ Hu).
  - subst r. by rewrite (send_personal_message_online _ _ _ _ _ _ Hu).
  - by apply send_personal_message_conns_same.
  - intros u' Hne. by apply send_personal_message_conns_other.
Qed.

Lemma C3_delivery_isolated_witness :
  active_connections two_sockets !! "U" = Some [11; 12]%Z ∧
  let r := send_personal_message (broken 11) 3 (pong_message 3) "U" two_sockets in
  r.1 = PyNone ∧
  r.2.2 = (send_effect (broken 11) (pong_message 3) <$> [11; 12]%Z) ∧
  default [] (active_connections r.2.1 !! "U") =
    filter (λ c, send_ok (broken 11) c = true) [11; 12]%Z ∧
  ∀ u', u' ≠ "U" →
    active_connections r.2.1 !! u' = active_connections two_sockets !! u'.
Proof.
  split; [reflexivity|].
  apply (C3_delivery_isolated (broken 11) 3 (pong_message 3) "U" two_sockets).
  reflexivity.
Defined.

(** With socket 11 broken, the delivery to the user's two sockets returns
    [None], not the count 1. *)
Lemma C3_returns_no_count :
  (send_personal_message (broken 11) 3 (pong_message 3) "U" two_sockets).1
    ≠ PyInt 1.
Proof. discriminate. Qed.

(** ** Broadcasts *)

Lemma gather_effects w now msg (tasks : list string) :
  ∀ m, NoDup tasks →
    (gather w now msg tasks m).2 = deliveries w msg m tasks.
Proof.
  induction tasks as [|u tasks IH]; intros m Hnd; [done|].
  apply NoDup_cons in Hnd as [Hu Hnd]. cbn [gather].
  pose proof (send_personal_message_conns_other w now msg u m) as Hother.
  assert ((send_personal_message w now msg u m).2.2 =
          (send_effect w msg <$> conns_of m u)) as Hout.
  { unfold conns_of. destruct (active_connections m !! u) as [conns|] eqn:E.
    - by rewrite (send_personal_message_online _ _ _ _ _ _ E).
    - by rewrite send_personal_message_offline. }
  destruct (send_personal_message w now msg u m) as [ret [m1 out1]].
  simpl in *. specialize (IH m1 Hnd).
  destruct (gather w now msg tasks m1) as [m2 out2]. simpl in *.
  subst out1 out2. unfold deliveries. cbn [mbind list_bind]. f_equal.
  apply Forall_bind_ext, Forall_forall. intros v Hv. unfold conns_of.
  rewrite Hother; [done|]. by intros ->.
Qed.

Lemma elem_of_deliveries w msg m (tasks : list string) ws msg' :
  Sent ws msg' ∈ deliveries w msg m tasks ↔
    msg' = msg ∧ send_ok w ws = true ∧ ∃ v, v ∈ tasks ∧ ws ∈ conns_of m v.
Proof.
  unfold deliveries. rewrite list_elem_of_bind. split.
  - intros (v & (c & He & Hc)%list_elem_of_fmap & Hv).
    unfold send_effect in He. destruct (send_ok w c) eqn:Hok; [|done].
    injection He as -> ->. eauto 6.
  - intros (-> & Hok & v & Hv & Hc). exists v. split; [|done].
    apply list_elem_of_fmap. exists ws. split; [|done].
    unfold send_effect. by rewrite Hok.
Qed.

(** ** Presence *)

Lemma filter_failed_nil w (conns : list Z) :
  (∀ c, c ∈ conns → send_ok w c = true) →
  filter (λ c, send_ok w c = false) conns = [].
Proof.
  induction conns as [|c conns IH]; intros Hok; [done|].
  rewrite filter_cons_False.
  - apply IH. intros c' Hc'. apply Hok. by right.
  - rewrite Hok; [done|by left].
Qed.

Lemma disconnect_presence now ws u m :
  user_presence (disconnect now ws u m) =
    if is_user_online u (disconnect now ws u m) then user_presence m
    else <[u := now]> (user_presence m).
Proof.
  unfold is_user_online. disconnect_cases now ws u m; simpl.
  - rewrite bool_decide_eq_false_2; [done|].
    rewrite lookup_delete_eq. by intros [? ?].
  - rewrite bool_decide_eq_true_2; [done|]. rewrite lookup_insert_eq. eauto.
  - rewrite bool_decide_eq_false_2; [done|]. rewrite Hconns. by intros [? ?].
Qed.

Lemma disconnect_stays_offline now ws u m :
  is_user_online u m = false → is_user_online u (disconnect now ws u m) = false.
Proof.
  unfold is_user_online. rewrite !bool_decide_eq_false. intros Hoff.
  destruct (active_connections m !! u) eqn:Hu; [by destruct Hoff; eauto|].
  by rewrite (disconnect_offline _ _ _ _ Hu) /= Hu.
Qed.

Lemma disconnect_all_stays_offline now u (failed : list Z) :
  ∀ m, is_user_online u m = false →
       is_user_online u (disconnect_all now u failed m) = false.
Proof.
  induction failed as [|c failed IH]; intros m Hoff; [done|].
  simpl. by apply IH, disconnect_stays_offline.
Qed.

Lemma disconnect_all_presence_online now u (failed : list Z) :
  ∀ m, is_user_online u (disconnect_all now u failed m) = true →
       user_presence (disconnect_all now u failed m) = user_presence m.
Proof.
  induction failed as [|c failed IH]; intros m Hon; [done|].
  simpl in *. rewrite (IH _ Hon) disconnect_presence.
  destruct (is_user_online u (disconnect now c u m)) eqn:Hc; [done|].
  by rewrite (disconnect_all_stays_offline _ _ _ _ Hc) in Hon.
Qed.

Lemma disconnect_presence_other now ws u m v :
  v ≠ u → user_presence (disconnect now ws u m) !! v = user_presence m !! v.
Proof.
  intros Hne. rewrite disconnect_presence.
  destruct (is_user_online _ _); [done|by rewrite lookup_insert_ne].
Qed.

Lemma disconnect_all_presence_other now u (failed : list Z) v :
  v ≠ u →
  ∀ m, user_presence (disconnect_all now u failed m) !! v = user_presence m !! v.
Proof.
  intros Hne. induction failed as [|c failed IH]; intros m; [done|].
  simpl. by rewrite IH disconnect_presence_other.
Qed.

(** C5, as the code has it.  The presence record of a user is written by every
    [connect] of that user and by every [disconnect] call that leaves the user
    without a registered connection; a [disconnect] that leaves the user a
    connection, [join_chatroom] and [leave_chatroom] leave every presence
    record as it was.  A delivery to a user changes no other user's record,
    and changes none at all when its writes all succeed or when the user still
    has a connection after its failure cleanup. *)
Theorem C5_presence_writes now ws u m :
  user_presence (connect now ws u m) = <[u := now]> (user_presence m) ∧
  user_presence (disconnect now ws u m) =
    (if is_user_online u (disconnect now ws u m) then user_presence m
     else <[u := now]> (user_presence m)) ∧
  (∀ r, user_presence (join_chatroom u r m) = user_presence m) ∧
  (∀ r, user_presence (leave_chatroom u r m) = user_presence m) ∧
  (∀ w msg, (∀ c, c ∈ conns_of m u → send_ok w c = true) →
     user_presence (send_personal_message w now msg u m).2.1 = user_presence m) ∧
  (∀ w msg,
     is_user_online u (send_personal_message w now msg u m).2.1 = true →
     user_presence (send_personal_message w now msg u m).2.1 = user_presence m) ∧
  (∀ w msg v, v ≠ u →
     user_presence (send_personal_message w now msg u m).2.1 !! v =
       user_presence m !! v).
Proof.
  split_and!; try done.
  - apply disconnect_presence.
  - intros w msg Hok. unfold conns_of in Hok.
    destruct (active_connections m !! u) as [conns|] eqn:Hu.
    + rewrite (send_personal_message_online _ _ _ _ _ _ Hu). simpl.
      rewrite filter_failed_nil; [|done]. simpl. apply touch_all_presence.
    + by rewrite send_personal_message_offline.
  - intros w msg. destruct (active_connections m !! u) as [conns|] eqn:Hu.
    + rewrite (send_personal_message_online _ _ _ _ _ _ Hu). simpl.
      intros Hon. by rewrite (disconnect_all_presence_online _ _ _ _ Hon)
                             touch_all_presence.
    + by rewrite send_personal_message_offline.
  - intros w msg v Hne. destruct (active_connections m !! u) as [conns|] eqn:Hu.
    + rewrite (send_personal_message_online _ _ _ _ _ _ Hu). simpl.
      by rewrite disconnect_all_presence_other // touch_all_presence.
    + by rewrite send_personal_message_offline.
Qed.

(** A second connection of a user who is online rewrites the user's
    [last_seen]. *)
Lemma C5_second_connect_rewrites_presence :
  is_user_online "U" (connect 1 11 "U" new_manager) = true ∧
  user_presence (connect 2 12 "U" (connect 1 11 "U" new_manager)) !! "U"
    ≠ user_presence (connect 1 11 "U" new_manager) !! "U".
Proof. split; [reflexivity|]. vm_compute. discriminate. Qed.

(** ** The receive loop *)

(** The two log calls of the loop that pass [event] as a keyword raise. *)
Lemma log_returns_event keywords :
  "event" ∈ keywords → log_returns keywords = false.
Proof.
  intros Hin. unfold log_returns. apply negb_false_iff, existsb_exists.
  exists "event". split; [by apply list_elem_of_In|apply String.eqb_refl].
Qed.

(** So a frame that decodes to a dict leaves the loop through the
    [except Exception] block, whatever its event is. *)
Lemma endpoint_recv_dict w now ws user envelope m :
  endpoint_recv w now ws user (Text (Some (JObj envelope))) m =
    server_error w now ws (Some user) m.
Proof. reflexivity. Qed.

(** The [ping] branch of the chain, as it is written: the pong goes out with
    [websocket.send_text], not through the manager, which is left as it
    was. *)
Lemma dispatch_ping w now ws user envelope m :
  py_eq_str (dict_get "event" envelope) "ping" = true →
  send_ok w ws = true →
  dispatch w now ws user envelope m = (ACTIVE, m, [Sent ws (pong_message now)]).
Proof.
  intros Hev Hok. unfold dispatch.
  destruct (dict_get "event" envelope) as [| | |s| | | |]; try done.
  simpl in Hev. apply String.eqb_eq in Hev as ->. by rewrite /= Hok.
Qed.

(** C6, at the failing input.  Socket 11 of Alice, opened at instant 0 and in
    the receive loop, gets the frame [{"event": "ping"}] at instant 1000 and
    every write would succeed.  The log call that precedes the chain on
    [event_type] raises, so the [ping] branch is not reached: no pong is
    written to the socket, which is closed with code 4000, and the disconnect
    path deletes its metadata, [last_activity] included, and leaves the user
    offline. *)
Theorem C6_ping_closes_the_connection :
  let r := endpoint_recv all_up 1000 11 alice ping_frame one_socket in
  r.1.1 = CLOSED ∧
  r.2 = [Logged "error" "WebSocket error"; Closed 11 4000] ∧
  received 11 r.2 = [] ∧
  connection_metadata r.1.2 !! 11%Z = None ∧
  is_user_online "A" r.1.2 = false.
Proof. split_and!; reflexivity. Qed.

Lemma handlers_reject_non_dict w now user data m :
  not_a_dict data →
  handle_join_chatroom w now user data m =
    (m, [Logged "error" "Failed to handle join chatroom"]) ∧
  handle_leave_chatroom w now (user_id_of user) data m =
    (m, [Logged "error" "Failed to handle leave chatroom"]) ∧
  handle_send_message w now user data m =
    (m, [Logged "error" "Failed to handle send message"]) ∧
  (∀ b, handle_typing_indicator w now user data b m =
          (m, [Logged "error" "Failed to handle typing indicator"])).
Proof. by destruct data. Qed.

(** C2, as the code has it.  A frame that [json.loads] cannot decode, or that
    decodes to something other than a dict, is not ignored: the exception
    leaves the receive loop, the socket is closed with code 4000, the
    disconnect path runs and the connection is [CLOSED].  What is caught and
    logged is an error inside a handler: a handler that is given data that is
    not a dict logs the error, writes and publishes nothing and leaves the
    manager as it was. *)
Theorem C2_malformed_frame_closes w now ws user m :
  (∀ frame, malformed frame →
     endpoint_recv w now ws user frame m = server_error w now ws (Some user) m) ∧
  (server_error w now ws (Some user) m).1.1 = CLOSED ∧
  (∃ out, (server_error w now ws (Some user) m).2 =
            Logged "error" "WebSocket error" :: Closed ws 4000 :: out) ∧
  (∀ data, not_a_dict data →
     handle_join_chatroom w now user data m =
       (m, [Logged "error" "Failed to handle join chatroom"]) ∧
     handle_leave_chatroom w now (user_id_of user) data m =
       (m, [Logged "error" "Failed to handle leave chatroom"]) ∧
     handle_send_message w now user data m =
       (m, [Logged "error" "Failed to handle send message"]) ∧
     (∀ b, handle_typing_indicator w now user data b m =
             (m, [Logged "error" "Failed to handle typing indicator"]))).
Proof.
  split_and!.
  - intros [[v|]| |] Hbad; try done. by destruct v.
  - unfold server_error. by destruct (endpoint_finally _ _ _ _ _).
  - unfold server_error. destruct (endpoint_finally _ _ _ _ _) as [m1 out].
    by exists out.
  - intros data Hshape. by apply handlers_reject_non_dict.
Qed.

(** A text frame that is not JSON, on an active connection: the connection is
    closed with code 4000, its user is deregistered, and the ping that follows
    is never read, so no pong is written. *)
Lemma C2_undecodable_frame_closes :
  let r := endpoint_loop all_up 11 alice [(5, Text None); (6, ping_frame)]%Z
             one_socket in
  r.1.1 = CLOSED ∧
  r.1.1 ≠ ACTIVE ∧
  r.2 = [Logged "error" "WebSocket error"; Closed 11 4000] ∧
  is_user_online "A" r.1.2 = false.
Proof. split_and!; [reflexivity|discriminate|reflexivity|reflexivity]. Qed.

(** ** What reaches the broadcast channel *)

Lemma published_app out1 out2 :
  published (out1 ++ out2) = published out1 ++ published out2.
Proof. apply omap_app. Qed.

Lemma published_stored message out :
  published (Stored message :: out) = published out.
Proof. done. Qed.

Lemma published_sends w msg (conns : list Z) :
  published (send_effect w msg <$> conns) = [].
Proof.
  induction conns as [|c conns IH]; [done|].
  cbn [fmap list_fmap]. unfold send_effect at 1.
  by destruct (send_ok w c).
Qed.

Lemma published_send_personal_message w now msg u m :
  published (send_personal_message w now msg u m).2.2 = [].
Proof.
  destruct (active_connections m !! u) as [conns|] eqn:Hu.
  - rewrite (send_personal_message_online _ _ _ _ _ _ Hu).
    apply published_sends.
  - by rewrite send_personal_message_offline.
Qed.

Lemma published_gather w now msg (tasks : list string) :
  ∀ m, published (gather w now msg tasks m).2 = [].
Proof.
  induction tasks as [|u tasks IH]; intros m; [done|]. cbn [gather].
  pose proof (published_send_personal_message w now msg u m) as H1.
  destruct (send_personal_message w now msg u m) as [ret [m1 out1]].
  cbn [fst snd] in *. specialize (IH m1).
  destruct (gather w now msg tasks m1) as [m2 out2].
  cbn [fst snd] in *. by rewrite published_app H1 IH.
Qed.

Lemma published_broadcast_to_chatroom w now msg room ex m :
  published (broadcast_to_chatroom w now msg room ex m).2 = [].
Proof.
  unfold broadcast_to_chatroom.
  destruct (chatroom_subscriptions m !! room); [|done].
  apply published_gather.
Qed.

Lemma published_publish_to_redis w topic message :
  published (publish_to_redis w topic message) =
    if redis_ok w then [(topic, message)] else [].
Proof. unfold publish_to_redis. by destruct (redis_ok w). Qed.

(** C8, as the code has it.  [publish_to_redis] puts on the channel exactly
    the message its caller built, nothing added; the envelope
    [handle_send_message] publishes has the two keys [event] and [message] and
    no other, so it carries no origin-process id. *)
Theorem C8_published_as_built w now user data m :
  (∀ topic message,
     published (publish_to_redis w topic message) =
       if redis_ok w then [(topic, message)] else []) ∧
  (∀ topic envelope,
     (topic, envelope) ∈ published (handle_send_message w now user data m).2 →
     envelope_keys envelope = ["event"; "message"] ∧
     field "event" envelope = JStr "message_received").
Proof.
  split; [intros; apply published_publish_to_redis|].
  intros topic envelope. unfold handle_send_message.
  destruct data as [| | | | | | |fields]; try (by intros ?%elem_of_nil).
  destruct (negb (truthy _) || negb (truthy _)); [by intros ?%elem_of_nil|].
  destruct (negb (check_chatroom_membership _ _ _)); [by intros ?%elem_of_nil|].
  destruct (dict_get "chatroom_id" fields) as [| | |room| | | |];
    try (by intros ?%elem_of_nil).
  pose proof (published_broadcast_to_chatroom w now
    (message_received (message_record now user (JStr room)
                         (dict_get "content" fields) fields)) room None m) as Hb.
  destruct (broadcast_to_chatroom _ _ _ _ _ _) as [m1 out]. simpl in Hb.
  cbn [snd]. rewrite published_stored.
  rewrite published_app Hb published_publish_to_redis.
  destruct (redis_ok w); [|by intros ?%elem_of_nil].
  by intros [= -> ->]%list_elem_of_singleton.
Qed.

(** Alice's [send_message] of "hi" to "general", handled by
    [handle_send_message]: what is published on the topic "general" is the
    envelope with the keys [event] and [message]; no key holds an
    origin-process id. *)
Lemma C8_published_envelope_untagged :
  (λ p, (p.1, envelope_keys p.2)) <$>
    published (handle_send_message all_up 5 alice
                 (JObj [("chatroom_id", JStr "general"); ("content", JStr "hi")])
                 general_room).2
  = [(JStr "general", ["event"; "message"])].
Proof. reflexivity. Qed.

(** ** Who is told about a status change *)

Lemma elem_of_relevant_users u v m :
  v ∈ relevant_users u m ↔ v ≠ u ∧ shares_room u v m.
Proof.
  unfold relevant_users, shares_room.
  rewrite elem_of_difference elem_of_union_list elem_of_singleton. split.
  - intros [(X & [Hu HX]%list_elem_of_filter & Hv) Hne]. split; [done|].
    apply list_elem_of_fmap in HX as ([r X'] & -> & Hr).
    apply elem_of_map_to_list in Hr. by exists r, X'.
  - intros [Hne (r & X & Hr & Hu & Hv)]. split; [|done].
    exists X. split; [|done]. apply list_elem_of_filter. split; [done|].
    apply list_elem_of_fmap. exists (r, X). split; [done|].
    by apply elem_of_map_to_list.
Qed.

Lemma conns_of_online m v ws : ws ∈ conns_of m v → is_user_online v m = true.
Proof.
  unfold conns_of, is_user_online. intros Hws. apply bool_decide_eq_true.
  destruct (active_connections m !! v); [by eauto|]. by apply elem_of_nil in Hws.
Qed.

Lemma broadcast_user_status_effects w now u status data m :
  (broadcast_user_status w now u status data m).2 =
    deliveries w (status_message now status data) m
      (filter (λ v, is_user_online v m = true) (elements (relevant_users u m))).
Proof.
  unfold broadcast_user_status. apply gather_effects.
  apply NoDup_filter, NoDup_elements.
Qed.

Lemma elem_of_broadcast_user_status w now u status data m ws :
  Sent ws (status_message now status data)
    ∈ (broadcast_user_status w now u status data m).2 ↔
  send_ok w ws = true ∧
  ∃ v, v ≠ u ∧ shares_room u v m ∧ ws ∈ conns_of m v.
Proof.
  rewrite broadcast_user_status_effects elem_of_deliveries. split.
  - intros (_ & Hok & v & [Hon Hv]%list_elem_of_filter & Hws).
    apply elem_of_elements, elem_of_relevant_users in Hv as [Hne Hshare].
    eauto 6.
  - intros (Hok & v & Hne & Hshare & Hws). split_and!; [done|done|].
    exists v. split; [|done]. apply list_elem_of_filter. split.
    + by eapply conns_of_online.
    + by apply elem_of_elements, elem_of_relevant_users.
Qed.

(** C4, as the code has it.  Every successful registration of a connection of
    a user, whether or not the user already has one, is followed by a
    [user_online] broadcast, and the sockets it is written to are exactly the
    registered sockets, accepting the write, of the other users who are
    subscribed to a chatroom the user is subscribed to at that moment. *)
Theorem C4_user_online_on_every_connect w now ws (u : User) m c :
  send_ok w ws = true →
  let r := endpoint_open w now ws (Some u) true m in
  r.1.1 = ACTIVE ∧
  (Sent c (status_message now "online" (online_user_data u)) ∈ r.2 ↔
   send_ok w c = true ∧
   ∃ v, v ≠ user_id_of u ∧ shares_room (user_id_of u) v m ∧ c ∈ conns_of m v).
Proof.
  intros Hok. unfold endpoint_open. rewrite Hok. cbn [negb].
  pose proof (elem_of_broadcast_user_status w now (user_id_of u) "online"
                (online_user_data u) (connect now ws (user_id_of u) m) c) as Hb.
  destruct (broadcast_user_status _ _ _ _ _ _) as [m2 out]. simpl in Hb.
  cbn zeta. cbn [fst snd]. split; [done|].
  rewrite elem_of_cons Hb. split.
  - intros [[=]|(Hc & v & Hne & Hshare & Hws)]. split; [done|].
    exists v. split_and!; [done|done|].
    unfold conns_of in *. simpl in Hws. by rewrite lookup_insert_ne in Hws.
  - intros (Hc & v & Hne & Hshare & Hws). right. split; [done|].
    exists v. split_and!; [done|done|].
    unfold conns_of in *. simpl. by rewrite lookup_insert_ne.
Qed.

Lemma C4_user_online_on_every_connect_witness :
  send_ok all_up 12 = true ∧
  let r := endpoint_open all_up 9 12 (Some alice) true general_room in
  r.1.1 = ACTIVE ∧
  (Sent 21 (status_message 9 "online" (online_user_data alice)) ∈ r.2 ↔
   send_ok all_up 21 = true ∧
   ∃ v, v ≠ user_id_of alice ∧ shares_room (user_id_of alice) v general_room ∧
        21%Z ∈ conns_of general_room v).
Proof.
  split; [reflexivity|].
  apply (C4_user_online_on_every_connect all_up 9 12 alice general_room 21).
  reflexivity.
Defined.

(** Alice is online on socket 11 and shares "general" with Bob.  Registering
    her second socket 12 writes a [user_online] for her to Bob's socket. *)
Lemma C4_second_connection_emits_user_online :
  is_user_online "A" general_room = true ∧
  received 21 (endpoint_open all_up 9 12 (Some alice) true general_room).2
    = [status_message 9 "online" (online_user_data alice)].
Proof. split; reflexivity. Qed.

(** ** What a socket receives from a broadcast *)

Lemma received_app ws out1 out2 :
  received ws (out1 ++ out2) = received ws out1 ++ received ws out2.
Proof. apply omap_app. Qed.

Lemma received_cons ws e out :
  received ws (e :: out) = received ws [e] ++ received ws out.
Proof. apply (received_app ws [e] out). Qed.

Lemma received_send_effect w msg ws c :
  received ws [send_effect w msg c] =
    if decide (c = ws) then if send_ok w c then [msg] else [] else [].
Proof.
  unfold send_effect. destruct (send_ok w c); simpl; by destruct (decide (c = ws)).
Qed.

Lemma received_sends_other w msg ws (conns : list Z) :
  ws ∉ conns → received ws (send_effect w msg <$> conns) = [].
Proof.
  induction conns as [|c conns IH]; intros Hws; [done|].
  cbn [fmap list_fmap]. rewrite received_cons received_send_effect.
  rewrite IH; [|set_solver].
  destruct (decide (c = ws)) as [->|]; [set_solver|done].
Qed.

Lemma received_sends_own w msg ws (conns : list Z) :
  NoDup conns → ws ∈ conns → send_ok w ws = true →
  received ws (send_effect w msg <$> conns) = [msg].
Proof.
  induction conns as [|c conns IH]; intros Hnd Hws Hok;
    [by apply elem_of_nil in Hws|].
  apply NoDup_cons in Hnd as [Hc Hnd].
  cbn [fmap list_fmap]. rewrite received_cons received_send_effect.
  destruct (decide (c = ws)) as [->|Hne].
  - rewrite Hok. by rewrite received_sends_other.
  - rewrite IH; [done|done| |done]. apply elem_of_cons in Hws as [->|]; done.
Qed.

Lemma received_deliveries_other w msg m ws (tasks : list string) :
  (∀ v, v ∈ tasks → ws ∉ conns_of m v) →
  received ws (deliveries w msg m tasks) = [].
Proof.
  induction tasks as [|v tasks IH]; intros Hws; [done|].
  unfold deliveries. rewrite bind_cons received_app.
  rewrite received_sends_other; [|apply Hws; by left].
  apply IH. intros v' Hv'. apply Hws. by right.
Qed.

Lemma received_deliveries_own w msg m ws u (tasks : list string) :
  exclusive m → NoDup tasks → u ∈ tasks → ws ∈ conns_of m u →
  send_ok w ws = true →
  received ws (deliveries w msg m tasks) = [msg].
Proof.
  intros [Hnd Hone] Htasks Hu Hws Hok. pose proof (Hnd u) as Hndu.
  induction tasks as [|v tasks IH]; [by apply elem_of_nil in Hu|].
  apply NoDup_cons in Htasks as [Hv Htasks].
  unfold deliveries. rewrite bind_cons received_app.
  destruct (decide (v = u)) as [->|Hne].
  - rewrite received_sends_own; [|done..].
    fold (deliveries w msg m tasks). rewrite received_deliveries_other; [done|].
    intros v' Hv' Hin. assert (v' = u) as -> by by eapply Hone. done.
  - rewrite received_sends_other.
    + apply IH; [done|]. apply elem_of_cons in Hu as [->|]; done.
    + intros Hin. apply Hne. by eapply Hone.
Qed.

Lemma received_publish w ws topic message :
  received ws (publish_to_redis w topic message) = [].
Proof. unfold publish_to_redis. by destruct (redis_ok w). Qed.

Lemma general_room_exclusive : exclusive general_room.
Proof.
  assert (∀ u, conns_of general_room u =
               if decide (u = "A") then [11%Z]
               else if decide (u = "B") then [21%Z] else []) as Hconns.
  { intros u. unfold conns_of.
    change (active_connections general_room)
      with (<[("B":string) := [21%Z]]> (<[("A":string) := [11%Z]]> (∅ : gmap string (list Z)))).
    repeat case_decide; subst; by simplify_map_eq. }
  split.
  - intros u. rewrite Hconns.
    repeat case_decide; try apply NoDup_singleton; apply NoDup_nil_2.
  - intros u v ws. rewrite !Hconns.
    repeat case_decide; subst; set_solver.
Qed.

(** C9, at the failing input.  Alice (socket 11) and Bob (socket 21) are both
    subscribed to "general", every write would succeed and the membership
    table lists Alice; her socket gets the frame [send_message] with the
    content "hi" at instant 5.  The log call that precedes the chain on
    [event_type] raises, so [handle_send_message] is not reached: neither
    socket is written anything, nothing is stored or published, Alice's
    socket is closed with code 4000 and the disconnect path removes her from
    the room. *)
Theorem C9_send_message_closes_the_sender :
  let r := endpoint_recv all_up 5 11 alice (send_frame "general" "hi")
             general_room in
  r.1.1 = CLOSED ∧
  r.2 = [Logged "error" "WebSocket error"; Closed 11 4000] ∧
  received 21 r.2 = [] ∧
  received 11 r.2 = [] ∧
  published r.2 = [] ∧
  stored r.2 = [] ∧
  is_user_online "A" r.1.2 = false ∧
  chatroom_subscriptions r.1.2 !! "general" = Some {["B"]}.
Proof. split_and!; reflexivity. Qed.

(** ** A repeated [disconnect] *)

Lemma py_remove_NoDup ws (l : list Z) : NoDup l → ws ∉ py_remove ws l.
Proof.
  induction l as [|c l IH]; intros Hnd; simpl; [set_solver|].
  apply NoDup_cons in Hnd as [Hc Hnd].
  destruct (decide (ws = c)) as [->|Hne]; [done|].
  intros [?|?]%elem_of_cons; [done|]. by apply IH.
Qed.

Lemma py_remove_elem_of ws c (l : list Z) : c ∈ py_remove ws l → c ∈ l.
Proof.
  induction l as [|x l IH]; [done|]. simpl.
  destruct (decide (ws = x)); [by right|].
  intros [->|?]%elem_of_cons; [by left|right; by apply IH].
Qed.

Lemma py_remove_NoDup_keeps ws (l : list Z) : NoDup l → NoDup (py_remove ws l).
Proof.
  induction l as [|x l IH]; intros Hnd; [done|].
  apply NoDup_cons in Hnd as [Hx Hnd]. simpl.
  destruct (decide (ws = x)); [done|].
  apply NoDup_cons. split; [|by apply IH].
  intros Hin. by apply Hx, (py_remove_elem_of ws).
Qed.

Lemma conns_of_disconnect now ws u m v :
  conns_of (disconnect now ws u m) v =
    if decide (v = u) then py_remove ws (conns_of m u) else conns_of m v.
Proof.
  unfold conns_of. destruct (decide (v = u)) as [->|Hne].
  - apply disconnect_conns_same.
  - by rewrite disconnect_conns_other.
Qed.

Lemma disconnect_exclusive now ws u m :
  exclusive m → exclusive (disconnect now ws u m).
Proof.
  intros [Hnd Hone]. split.
  - intros v. rewrite conns_of_disconnect.
    destruct (decide (v = u)); [by apply py_remove_NoDup_keeps|done].
  - intros v1 v2 c. rewrite !conns_of_disconnect.
    destruct (decide (v1 = u)) as [->|]; destruct (decide (v2 = u)) as [->|];
      try done; intros H1 H2;
      try apply py_remove_elem_of in H1; try apply py_remove_elem_of in H2;
      by eapply Hone.
Qed.

Lemma received_sends_length w msg ws (conns : list Z) :
  NoDup conns → length (received ws (send_effect w msg <$> conns)) ≤ 1.
Proof.
  induction conns as [|c conns IH]; intros Hnd; [simpl; lia|].
  apply NoDup_cons in Hnd as [Hc Hnd].
  cbn [fmap list_fmap]. rewrite received_cons received_send_effect.
  destruct (decide (c = ws)) as [->|]; [|by apply IH].
  rewrite received_sends_other; [|done].
  destruct (send_ok w ws); simpl; lia.
Qed.

Lemma received_deliveries_length w msg m ws (tasks : list string) :
  exclusive m → NoDup tasks →
  length (received ws (deliveries w msg m tasks)) ≤ 1.
Proof.
  intros [Hnd Hone]. induction tasks as [|v tasks IH]; intros Htasks; [simpl; lia|].
  apply NoDup_cons in Htasks as [Hv Htasks].
  unfold deliveries. rewrite bind_cons received_app length_app.
  fold (deliveries w msg m tasks).
  destruct (decide (ws ∈ conns_of m v)) as [Hin|Hout].
  - rewrite (received_deliveries_other _ _ _ _ tasks).
    + pose proof (received_sends_length w msg ws (conns_of m v) (Hnd v)).
      simpl. lia.
    + intros v' Hv' Hin'. assert (v' = v) as -> by by eapply Hone. done.
  - rewrite received_sends_other; [|done]. by apply IH.
Qed.

(** C7, as the code has it.  When a socket is registered at most once under
    its user, a second [disconnect] of the same socket and user leaves the
    registry, the subscriptions and the connection metadata exactly as the
    first call left them (so nothing is purged a second time); it rewrites the
    user's [last_seen] with its own instant when the user has no connection
    left, and leaves the presence records alone otherwise.  [disconnect]
    writes to no socket; when the endpoint's [finally] block runs after
    another trigger has already disconnected the socket, its one
    [user_offline] broadcast writes at most one frame to any socket. *)
Theorem C7_second_disconnect t1 t2 ws u m :
  NoDup (conns_of m u) →
  let m1 := disconnect t1 ws u m in
  let m2 := disconnect t2 ws u m1 in
  active_connections m2 = active_connections m1 ∧
  chatroom_subscriptions m2 = chatroom_subscriptions m1 ∧
  connection_metadata m2 = connection_metadata m1 ∧
  user_presence m2 =
    (if is_user_online u m1 then user_presence m1
     else <[u := t2]> (user_presence m1)) ∧
  (∀ w user c,
     user_id_of user = u → exclusive m →
     length (received c (endpoint_finally w t2 ws (Some user) m1).2) ≤ 1).
Proof.
  intros Hnd m1 m2.
  assert (connection_metadata m2 = connection_metadata m1) as Hmd.
  { subst m1 m2. unfold disconnect.
    repeat match goal with |- context [let '(_, _) := ?x in _] => destruct x end.
    simpl. apply delete_delete_eq. }
  assert (∀ l, active_connections m1 !! u = Some l → py_remove ws l = l ∧ l ≠ [])
    as Hrest.
  { intros l. subst m1. unfold conns_of in Hnd.
    disconnect_cases t1 ws u m; simpl.
    - by rewrite lookup_delete_eq.
    - rewrite lookup_insert_eq. intros [= <-]. split; [|done].
      apply py_remove_not_in. rewrite -Hrest. by apply py_remove_NoDup.
    - by rewrite Hconns. }
  assert (active_connections m2 = active_connections m1) as Hac.
  { subst m2. destruct (active_connections m1 !! u) as [l|] eqn:Hl.
    - destruct (Hrest l eq_refl) as [Hsame Hne]. destruct l as [|c l]; [done|].
      rewrite (disconnect_not_last _ _ _ _ _ _ _ Hl Hsame). simpl.
      by apply insert_id.
    - by rewrite (disconnect_offline _ _ _ _ Hl). }
  split_and!; [done| |done| |].
  - subst m2. destruct (active_connections m1 !! u) as [l|] eqn:Hl.
    + destruct (Hrest l eq_refl) as [Hsame Hne]. destruct l as [|c l]; [done|].
      by rewrite (disconnect_not_last _ _ _ _ _ _ _ Hl Hsame).
    + by rewrite (disconnect_offline _ _ _ _ Hl).
  - subst m2. rewrite disconnect_presence. unfold is_user_online.
    fold (disconnect t2 ws u m1). by rewrite Hac.
  - intros w user c <- Hex. unfold endpoint_finally.
    destruct (String.eqb (user_id_of user) ""); [simpl; lia|].
    rewrite broadcast_user_status_effects.
    apply received_deliveries_length.
    + by do 2 apply disconnect_exclusive.
    + apply NoDup_filter, NoDup_elements.
Qed.

Lemma two_sockets_conns u :
  conns_of two_sockets u = if decide (u = "U") then [11; 12]%Z else [].
Proof.
  unfold conns_of.
  change (active_connections two_sockets)
    with (<[("U":string) := [11; 12]%Z]>
            (<[("U":string) := [11%Z]]> (∅ : gmap string (list Z)))).
  case_decide; subst; by simplify_map_eq.
Qed.

Lemma C7_second_disconnect_witness :
  NoDup (conns_of two_sockets "U") ∧
  let m1 := disconnect 5 11 "U" two_sockets in
  let m2 := disconnect 9 11 "U" m1 in
  active_connections m2 = active_connections m1 ∧
  chatroom_subscriptions m2 = chatroom_subscriptions m1 ∧
  connection_metadata m2 = connection_metadata m1 ∧
  user_presence m2 =
    (if is_user_online "U" m1 then user_presence m1
     else <[("U" : string) := 9%Z]> (user_presence m1)) ∧
  (∀ w user c,
     user_id_of user = "U" → exclusive two_sockets →
     length (received c (endpoint_finally w 9 11 (Some user) m1).2) ≤ 1).
Proof.
  assert (NoDup (conns_of two_sockets "U")) as Hnd.
  { rewrite two_sockets_conns. simpl. apply NoDup_cons. split; [set_solver|].
    apply NoDup_singleton. }
  split; [exact Hnd|].
  exact (C7_second_disconnect 5 9 11 "U" two_sockets Hnd).
Defined.

(** The second [disconnect] of a user's only socket, four seconds after the
    first, does not leave the manager as the first call left it: [last_seen]
    moves from 5 to 9. *)
Lemma C7_second_disconnect_moves_last_seen :
  user_presence (disconnect 5 11 "A" one_socket) !! "A" = Some 5%Z ∧
  user_presence (disconnect 9 11 "A" (disconnect 5 11 "A" one_socket)) !! "A"
    = Some 9%Z ∧
  disconnect 9 11 "A" (disconnect 5 11 "A" one_socket)
    ≠ disconnect 5 11 "A" one_socket.
Proof.
  split_and!; [reflexivity|reflexivity|].
  intros H. apply (f_equal (λ m, user_presence m !! "A")) in H.
  vm_compute in H. discriminate.
Qed.

(** ** Closing a connection *)

Lemma relevant_users_unsubscribed u m :
  (∀ r members, chatroom_subscriptions m !! r = Some members → u ∉ members) →
  relevant_users u m = ∅.
Proof.
  intros Hnone. apply set_eq. intros v. rewrite elem_of_relevant_users.
  split; [|by intros ?%not_elem_of_empty].
  intros [_ (r & members & Hr & Hu & _)]. by destruct (Hnone r members Hr).
Qed.

(** When the socket that closes is the last one of its user, the [finally]
    block of the endpoint writes nothing: [disconnect] has taken the user out
    of every chatroom before [broadcast_user_status] looks for the users to
    tell. *)
Lemma last_close_tells_nobody w now ws (user : User) m conns :
  user_id_of user ≠ "" →
  active_connections m !! user_id_of user = Some conns →
  py_remove ws conns = [] →
  (endpoint_finally w now ws (Some user) m).2 = [].
Proof.
  intros Hne%String.eqb_neq Hconns Hlast. unfold endpoint_finally.
  rewrite Hne (disconnect_last _ _ _ _ _ Hconns Hlast).
  unfold broadcast_user_status. rewrite relevant_users_unsubscribed; [done|].
  intros r members Hr. simpl in Hr. by apply purge_user_not_member in Hr.
Qed.

(** C1 on the claim's scenario.  Alice holds the sockets 11 and 12 and is
    subscribed to "roomA" (with Bob, socket 21) and "roomB" (with Carol,
    socket 31).  Closing socket 11 writes a [user_offline] for Alice to Bob and
    to Carol while Alice is still online and still subscribed to both rooms;
    closing socket 12, her last, purges her subscriptions and then writes
    nothing to anyone. *)
Theorem C1_user_offline_sent_before_the_purge :
  let first := run_step all_up (Recv 10 11 alice Disconnect) two_rooms in
  let second := run_step all_up (Recv 11 12 alice Disconnect) first.1 in
  let offline := status_message 10 "offline" (offline_user_data alice) in
  received 21 first.2 = [offline] ∧
  received 31 first.2 = [offline] ∧
  is_user_online "A" first.1 = true ∧
  get_chatroom_members "roomA" first.1 = {["A"; "B"]} ∧
  get_chatroom_members "roomB" first.1 = {["A"; "C"]} ∧
  second.2 = [] ∧
  is_user_online "A" second.1 = false ∧
  get_chatroom_members "roomA" second.1 = {["B"]} ∧
  get_chatroom_members "roomB" second.1 = {["C"]}.
Proof. split_and!; reflexivity. Qed.

(** * Further properties *)

(** ** The subscription index *)

Lemma manager_eq m1 m2 :
  active_connections m1 = active_connections m2 →
  chatroom_subscriptions m1 = chatroom_subscriptions m2 →
  user_presence m1 = user_presence m2 →
  connection_metadata m1 = connection_metadata m2 →
  m1 = m2.
Proof. destruct m1, m2. simpl. by intros -> -> -> ->. Qed.

Lemma members_discard_user u (subs : gmap string (gset string)) k r :
  default ∅ (discard_user u subs k !! r) =
    if decide (r = k) then default ∅ (subs !! k) ∖ {[u]} else default ∅ (subs !! r).
Proof.
  rewrite discard_user_lookup. destruct (decide (r = k)) as [->|]; [|done].
  destruct (subs !! k) as [s|]; simpl; [|set_solver].
  unfold discard_from. destruct (decide (s ∖ {[u]} = ∅)) as [->|]; done.
Qed.

(** X1.  [join_chatroom] adds the user to the room's subscriber set and
    touches no other room; joining a second time changes nothing. *)
Theorem X1_join_adds_once u r m :
  get_chatroom_members r (join_chatroom u r m) =
    get_chatroom_members r m ∪ {[u]} ∧
  (∀ r', r' ≠ r →
     get_chatroom_members r' (join_chatroom u r m) = get_chatroom_members r' m) ∧
  join_chatroom u r (join_chatroom u r m) = join_chatroom u r m.
Proof.
  unfold get_chatroom_members. split_and!.
  - simpl. by rewrite lookup_insert_eq.
  - intros r' Hne. simpl. by rewrite lookup_insert_ne.
  - apply manager_eq; try done. simpl.
    rewrite lookup_insert_eq insert_insert_eq. simpl. f_equal. set_solver.
Qed.

(** X2.  [leave_chatroom] discards the user from the room's subscriber set
    and deletes the room's entry when that leaves it empty; a room without an
    entry stays without one, the entries of the other rooms and the rest of
    the manager are left as they are, and leaving a second time changes
    nothing. *)
Theorem X2_leave_removes_once u r m :
  (∀ members,
     chatroom_subscriptions m !! r = Some members →
     chatroom_subscriptions (leave_chatroom u r m) !! r =
       if decide (members ∖ {[u]} = ∅) then None else Some (members ∖ {[u]})) ∧
  (chatroom_subscriptions m !! r = None →
   chatroom_subscriptions (leave_chatroom u r m) !! r = None) ∧
  (∀ r', r' ≠ r →
     chatroom_subscriptions (leave_chatroom u r m) !! r' =
       chatroom_subscriptions m !! r') ∧
  get_chatroom_members r (leave_chatroom u r m) =
    get_chatroom_members r m ∖ {[u]} ∧
  active_connections (leave_chatroom u r m) = active_connections m ∧
  user_presence (leave_chatroom u r m) = user_presence m ∧
  connection_metadata (leave_chatroom u r m) = connection_metadata m ∧
  leave_chatroom u r (leave_chatroom u r m) = leave_chatroom u r m.
Proof.
  split_and!; try done.
  - intros members Hr. simpl. rewrite discard_user_lookup decide_True; [|done].
    by rewrite Hr.
  - intros Hr. simpl. rewrite discard_user_lookup decide_True; [|done].
    by rewrite Hr.
  - intros r' Hne. simpl. by rewrite discard_user_lookup decide_False.
  - unfold get_chatroom_members. simpl.
    by rewrite members_discard_user decide_True.
  - apply manager_eq; try done. simpl. apply map_eq. intros k.
    rewrite !discard_user_lookup. destruct (decide (k = r)) as [->|]; [|done].
    rewrite decide_True; [|done].
    destruct (chatroom_subscriptions m !! r) as [s|]; [|done]. simpl.
    unfold discard_from.
    destruct (decide (s ∖ {[u]} = ∅)) as [He|He]; simpl; [done|].
    replace (s ∖ {[u]} ∖ {[u]}) with (s ∖ {[u]}) by set_solver.
    by rewrite decide_False.
Qed.

(** X3.  In a manager without empty room entries, [leave_chatroom] of a user
    who is not subscribed to the room changes nothing, and it undoes a
    [join_chatroom] of such a user. *)
Theorem X3_leave_undoes_join u r m :
  rooms_nonempty m →
  u ∉ get_chatroom_members r m →
  leave_chatroom u r m = m ∧
  leave_chatroom u r (join_chatroom u r m) = m.
Proof.
  intros Hne Hu. unfold get_chatroom_members in Hu.
  split; apply manager_eq; try done; simpl; apply map_eq; intros k;
    rewrite discard_user_lookup; destruct (decide (k = r)) as [->|]; try done.
  - destruct (chatroom_subscriptions m !! r) as [s|] eqn:Hr; [|done].
    simpl in *. unfold discard_from.
    replace (s ∖ {[u]}) with s by set_solver.
    rewrite decide_False; [done|by eapply Hne].
  - rewrite lookup_insert_eq. simpl. unfold discard_from.
    destruct (chatroom_subscriptions m !! r) as [s|] eqn:Hr; simpl in *.
    + replace ((s ∪ {[u]}) ∖ {[u]}) with s by set_solver.
      rewrite decide_False; [done|by eapply Hne].
    + rewrite decide_True; [done|set_solver].
  - by rewrite lookup_insert_ne.
Qed.

Lemma X3_leave_undoes_join_witness :
  rooms_nonempty general_room ∧
  ("C" ∉ get_chatroom_members "general" general_room) ∧
  leave_chatroom "C" "general" general_room = general_room ∧
  leave_chatroom "C" "general" (join_chatroom "C" "general" general_room)
    = general_room.
Proof.
  assert (rooms_nonempty general_room) as Hne.
  { intros r s.
    change (chatroom_subscriptions general_room)
      with (<[("general":string) := ({["A"; "B"]} : gset string)]>
              (∅ : gmap string (gset string))).
    rewrite lookup_insert. destruct (decide (("general":string) = r)).
    - intros [= <-]. set_solver.
    - by rewrite lookup_empty. }
  assert ("C" ∉ get_chatroom_members "general" general_room) as HC.
  { change (get_chatroom_members "general" general_room)
      with ({["A"; "B"]} : gset string). set_solver. }
  split; [exact Hne|]. split; [exact HC|].
  exact (X3_leave_undoes_join "C" "general" general_room Hne HC).
Defined.

(** ** The registry *)

Lemma conns_of_Some m u ws (l : list Z) :
  conns_of m u = ws :: l → active_connections m !! u = Some (ws :: l).
Proof.
  unfold conns_of. destruct (active_connections m !! u); simpl; [by intros ->|done].
Qed.

Lemma members_purge_user u m r :
  default ∅ (purge_user u (chatroom_subscriptions m) !! r) =
    get_chatroom_members r m ∖ {[u]}.
Proof.
  rewrite purge_user_lookup. unfold get_chatroom_members.
  destruct (chatroom_subscriptions m !! r) as [s|]; simpl; [|set_solver].
  unfold discard_from. destruct (decide (s ∖ {[u]} = ∅)) as [->|]; done.
Qed.

(** X4.  Disconnecting the only socket of a user takes the user offline,
    removes the user from every chatroom and nobody else from any, stamps the
    user's [last_seen] and drops the socket's metadata. *)
Theorem X4_last_disconnect_purges now ws u m :
  conns_of m u = [ws] →
  let m' := disconnect now ws u m in
  is_user_online u m' = false ∧
  (∀ r, get_chatroom_members r m' = get_chatroom_members r m ∖ {[u]}) ∧
  user_presence m' !! u = Some now ∧
  connection_metadata m' !! ws = None ∧
  (∀ v, v ≠ u → conns_of m' v = conns_of m v).
Proof.
  intros Hu%conns_of_Some m'. subst m'.
  rewrite (disconnect_last now ws u m [ws] Hu);
    [|by simpl; rewrite decide_True].
  split_and!.
  - unfold is_user_online. simpl. apply bool_decide_eq_false.
    rewrite lookup_delete_eq. by intros [? ?].
  - intros r. unfold get_chatroom_members at 1. simpl. apply members_purge_user.
  - simpl. by rewrite lookup_insert_eq.
  - simpl. by rewrite lookup_delete_eq.
  - intros v Hne. unfold conns_of. simpl. by rewrite lookup_delete_ne.
Qed.

Lemma X4_last_disconnect_purges_witness :
  conns_of one_socket "A" = [11%Z] ∧
  let m' := disconnect 7 11 "A" one_socket in
  is_user_online "A" m' = false ∧
  (∀ r, get_chatroom_members r m' = get_chatroom_members r one_socket ∖ {["A"]}) ∧
  user_presence m' !! "A" = Some 7%Z ∧
  connection_metadata m' !! 11%Z = None ∧
  (∀ v, v ≠ "A" → conns_of m' v = conns_of one_socket v).
Proof.
  split; [reflexivity|].
  apply (X4_last_disconnect_purges 7 11 "A" one_socket). reflexivity.
Defined.

Lemma py_remove_length ws (l : list Z) :
  ws ∈ l → S (length (py_remove ws l)) = length l.
Proof.
  induction l as [|c l IH]; [by intros ?%elem_of_nil|].
  intros Hin. simpl. destruct (decide (ws = c)) as [->|Hne]; [done|].
  simpl. f_equal. apply IH. by apply elem_of_cons in Hin as [->|].
Qed.

(** X5.  Disconnecting one of several sockets of a user keeps the user
    online with one connection less, and leaves the subscriptions, the
    presence records and the other users' connections as they were. *)
Theorem X5_disconnect_one_of_several now ws u m :
  ws ∈ conns_of m u →
  2 ≤ length (conns_of m u) →
  let m' := disconnect now ws u m in
  is_user_online u m' = true ∧
  S (get_user_connection_count u m') = get_user_connection_count u m ∧
  chatroom_subscriptions m' = chatroom_subscriptions m ∧
  user_presence m' = user_presence m ∧
  (∀ v, v ≠ u → conns_of m' v = conns_of m v).
Proof.
  intros Hin Hlen m'. subst m'. pose proof (py_remove_length ws _ Hin) as Hrem.
  unfold get_user_connection_count. fold (conns_of (disconnect now ws u m) u).
  fold (conns_of m u). rewrite conns_of_disconnect decide_True; [|done].
  unfold conns_of in Hin, Hlen, Hrem.
  destruct (active_connections m !! u) as [conns|] eqn:Hu;
    [|by apply elem_of_nil in Hin].
  simpl in *. destruct (py_remove ws conns) as [|c rest] eqn:Hrest;
    [simpl in Hrem; lia|].
  rewrite (disconnect_not_last now ws u m conns c rest Hu Hrest).
  unfold conns_of. rewrite Hu. simpl. split_and!; try done.
  - unfold is_user_online. simpl. apply bool_decide_eq_true.
    rewrite lookup_insert_eq. eauto.
  - by rewrite Hrest.
  - intros v Hne. by rewrite lookup_insert_ne.
Qed.

Lemma X5_disconnect_one_of_several_witness :
  11%Z ∈ conns_of two_sockets "U" ∧
  2 ≤ length (conns_of two_sockets "U") ∧
  let m' := disconnect 7 11 "U" two_sockets in
  is_user_online "U" m' = true ∧
  S (get_user_connection_count "U" m') = get_user_connection_count "U" two_sockets ∧
  chatroom_subscriptions m' = chatroom_subscriptions two_sockets ∧
  user_presence m' = user_presence two_sockets ∧
  (∀ v, v ≠ "U" → conns_of m' v = conns_of two_sockets v).
Proof.
  assert (11%Z ∈ conns_of two_sockets "U") as Hin.
  { rewrite two_sockets_conns. simpl. set_solver. }
  assert (2 ≤ length (conns_of two_sockets "U")) as Hlen.
  { rewrite two_sockets_conns. simpl. lia. }
  split; [exact Hin|]. split; [exact Hlen|].
  exact (X5_disconnect_one_of_several 7 11 "U" two_sockets Hin Hlen).
Defined.

Lemma py_remove_snoc ws (l : list Z) : ws ∉ l → py_remove ws (l ++ [ws]) = l.
Proof.
  induction l as [|c l IH]; intros Hout; simpl.
  - by rewrite decide_True.
  - destruct (decide (ws = c)) as [->|]; [set_solver|].
    f_equal. apply IH. set_solver.
Qed.

(** X6.  In a manager without empty connection lists, registering a socket
    that is not yet registered under the user and has no metadata, and then
    disconnecting it, gives back the registry and the metadata; when the user
    had a connection before, the subscriptions are given back too. *)
Theorem X6_disconnect_undoes_connect t1 t2 ws u m :
  conns_nonempty m →
  ws ∉ conns_of m u →
  connection_metadata m !! ws = None →
  let m' := disconnect t2 ws u (connect t1 ws u m) in
  active_connections m' = active_connections m ∧
  connection_metadata m' = connection_metadata m ∧
  (is_user_online u m = true →
   chatroom_subscriptions m' = chatroom_subscriptions m).
Proof.
  intros Hne Hout Hmd m'. subst m'. unfold conns_of in Hout.
  pose proof (py_remove_snoc ws _ Hout) as Hrem.
  destruct (active_connections m !! u) as [conns|] eqn:Hu; cbn [default] in *.
  - assert (active_connections (connect t1 ws u m) !! u = Some (conns ++ [ws]))
      as Hc by (simpl; by rewrite lookup_insert_eq Hu).
    destruct conns as [|c rest]; [by destruct (Hne u [] Hu)|].
    rewrite (disconnect_not_last t2 ws u _ _ c rest Hc Hrem). simpl.
    split_and!; [|by rewrite delete_insert_eq delete_id|done].
    rewrite insert_insert_eq. by apply insert_id.
  - assert (active_connections (connect t1 ws u m) !! u = Some ([] ++ [ws]))
      as Hc by (simpl; by rewrite lookup_insert_eq Hu).
    rewrite (disconnect_last t2 ws u _ _ Hc Hrem). simpl.
    split_and!; [|by rewrite delete_insert_eq delete_id|].
    + by rewrite delete_insert_eq delete_id.
    + unfold is_user_online. rewrite Hu. intros Hon.
      apply bool_decide_eq_true in Hon as [? ?]. done.
Qed.

Lemma X6_disconnect_undoes_connect_witness :
  conns_nonempty one_socket ∧
  (12%Z ∉ conns_of one_socket "A") ∧
  connection_metadata one_socket !! 12%Z = None ∧
  let m' := disconnect 9 12 "A" (connect 8 12 "A" one_socket) in
  active_connections m' = active_connections one_socket ∧
  connection_metadata m' = connection_metadata one_socket ∧
  (is_user_online "A" one_socket = true →
   chatroom_subscriptions m' = chatroom_subscriptions one_socket).
Proof.
  assert (conns_nonempty one_socket) as Hne.
  { apply connect_conns_nonempty. intros u l. simpl. by rewrite lookup_empty. }
  assert (12%Z ∉ conns_of one_socket "A") as Hout.
  { change (conns_of one_socket "A") with [11%Z]. set_solver. }
  split; [exact Hne|]. split; [exact Hout|]. split; [reflexivity|].
  exact (X6_disconnect_undoes_connect 8 9 12 "A" one_socket Hne Hout eq_refl).
Defined.

(** ** Counting *)

Lemma sum_values_insert {A} (f : A → nat) (m : gmap string A) k x :
  sum_list (f <$> (map_to_list (<[k := x]> m)).*2) =
    f x + sum_list (f <$> (map_to_list (delete k m)).*2).
Proof.
  rewrite -insert_delete_eq.
  rewrite (map_to_list_insert (delete k m) k x); [|by rewrite lookup_delete_eq].
  done.
Qed.

Lemma sum_values_lookup {A} (f : A → nat) (m : gmap string A) k x :
  m !! k = Some x →
  sum_list (f <$> (map_to_list m).*2) =
    f x + sum_list (f <$> (map_to_list (delete k m)).*2).
Proof.
  intros Hk. rewrite -{1}(insert_id m k x Hk). apply sum_values_insert.
Qed.

Lemma sum_values_absent {A} (f : A → nat) (m : gmap string A) k :
  m !! k = None →
  sum_list (f <$> (map_to_list (delete k m)).*2) =
    sum_list (f <$> (map_to_list m).*2).
Proof. intros Hk. by rewrite delete_id. Qed.

Lemma sum_values_ge_size {A} (f : A → nat) (m : gmap string A) :
  (∀ k x, m !! k = Some x → 1 ≤ f x) →
  size m ≤ sum_list (f <$> (map_to_list m).*2).
Proof.
  intros Hpos. rewrite -length_map_to_list.
  assert (Forall (λ p, 1 ≤ f p.2) (map_to_list m)) as Hall.
  { apply Forall_forall. intros [k x] Hkx%elem_of_map_to_list. by eapply Hpos. }
  revert Hall. generalize (map_to_list m). intros l Hall.
  induction Hall as [|p l Hp Hl IH]; [simpl; lia|].
  rewrite !fmap_cons. simpl. lia.
Qed.

(** X7.  After any sequence of manager calls on a fresh manager, the
    statistics of [get_stats] count at least one connection for every online
    user and at least one subscription for every active chatroom. *)
Theorem X7_stats_bounds (ops : list manager_op) :
  let st := get_stats (run_ops ops new_manager) in
  online_users st ≤ total_connections st ∧
  active_chatrooms st ≤ total_subscriptions st.
Proof.
  intros st. subst st.
  destruct (run_ops_well_formed ops new_manager new_manager_well_formed)
    as [Hr Hc].
  split; simpl; apply sum_values_ge_size.
  - intros u conns Hu. specialize (Hc u conns Hu).
    destruct conns; simpl; [done|lia].
  - intros r members Hm. specialize (Hr r members Hm).
    assert (size members ≠ 0); [|lia].
    apply size_non_empty_iff. by intros ?%leibniz_equiv.
Qed.

(** X8.  [connect] raises the total of [get_connection_count] by exactly one,
    and [disconnect] of a socket registered under the user lowers it by
    exactly one. *)
Theorem X8_connection_count_steps now ws u m :
  get_connection_count (connect now ws u m) = S (get_connection_count m) ∧
  (ws ∈ conns_of m u →
   S (get_connection_count (disconnect now ws u m)) = get_connection_count m).
Proof.
  unfold get_connection_count. split.
  - simpl. rewrite sum_values_insert length_app. simpl.
    destruct (active_connections m !! u) as [conns|] eqn:Hu; simpl.
    + rewrite (sum_values_lookup _ _ u conns Hu). lia.
    + rewrite sum_values_absent; [|done]. lia.
  - unfold conns_of. intros Hin.
    destruct (active_connections m !! u) as [conns|] eqn:Hu;
      [|by apply elem_of_nil in Hin].
    simpl in Hin. pose proof (py_remove_length ws conns Hin) as Hlen.
    rewrite (sum_values_lookup _ (active_connections m) u conns Hu).
    destruct (py_remove ws conns) as [|c rest] eqn:Hrest.
    + rewrite (disconnect_last now ws u m conns Hu Hrest). simpl in *. lia.
    + rewrite (disconnect_not_last now ws u m conns c rest Hu Hrest). simpl.
      rewrite sum_values_insert. simpl in *. lia.
Qed.

(** ** One socket, one registration *)

Lemma py_remove_sublist ws (l : list Z) : py_remove ws l `sublist_of` l.
Proof.
  induction l as [|c l IH]; simpl; [done|].
  destruct (decide (ws = c)); [by apply sublist_cons|by apply sublist_skip].
Qed.

Lemma shrinks_refl m : shrinks m m.
Proof. by intros v. Qed.

Lemma shrinks_trans m1 m2 m3 : shrinks m1 m2 → shrinks m2 m3 → shrinks m1 m3.
Proof. intros H1 H2 v. etrans; [apply H1|apply H2]. Qed.

Lemma shrinks_same_registry m' m :
  active_connections m' = active_connections m → shrinks m' m.
Proof. intros Heq v. unfold conns_of. by rewrite Heq. Qed.

Lemma exclusive_shrinks m' m : shrinks m' m → exclusive m → exclusive m'.
Proof.
  intros Hsub [Hnd Hone]. split.
  - intros u. by eapply sublist_NoDup.
  - intros u v ws Hu Hv. apply (Hone u v ws).
    + eapply elem_of_sublist; [exact Hu|apply Hsub].
    + eapply elem_of_sublist; [exact Hv|apply Hsub].
Qed.

Lemma disconnect_shrinks now ws u m : shrinks (disconnect now ws u m) m.
Proof.
  intros v. rewrite conns_of_disconnect.
  destruct (decide (v = u)) as [->|]; [apply py_remove_sublist|done].
Qed.

Lemma disconnect_all_shrinks now u (failed : list Z) :
  ∀ m, shrinks (disconnect_all now u failed m) m.
Proof.
  induction failed as [|c failed IH]; intros m; [apply shrinks_refl|].
  simpl. eapply shrinks_trans; [apply IH|apply disconnect_shrinks].
Qed.

Lemma send_personal_message_shrinks w now msg u m :
  shrinks (send_personal_message w now msg u m).2.1 m.
Proof.
  destruct (active_connections m !! u) as [conns|] eqn:Hu.
  - rewrite (send_personal_message_online _ _ _ _ _ _ Hu). simpl.
    eapply shrinks_trans; [apply disconnect_all_shrinks|].
    apply shrinks_same_registry, touch_all_conns.
  - rewrite send_personal_message_offline; [|done]. apply shrinks_refl.
Qed.

Lemma gather_shrinks w now msg (tasks : list string) :
  ∀ m, shrinks (gather w now msg tasks m).1 m.
Proof.
  induction tasks as [|u tasks IH]; intros m; [apply shrinks_refl|].
  cbn [gather].
  pose proof (send_personal_message_shrinks w now msg u m) as H1.
  destruct (send_personal_message w now msg u m) as [ret [m1 out1]].
  cbn [fst snd] in *. specialize (IH m1).
  destruct (gather w now msg tasks m1) as [m2 out2]. cbn [fst snd] in *.
  by eapply shrinks_trans.
Qed.

Lemma broadcast_to_chatroom_shrinks w now msg r ex m :
  shrinks (broadcast_to_chatroom w now msg r ex m).1 m.
Proof.
  unfold broadcast_to_chatroom.
  destruct (chatroom_subscriptions m !! r); [apply gather_shrinks|apply shrinks_refl].
Qed.

Lemma conns_of_connect now ws u m v :
  conns_of (connect now ws u m) v =
    if decide (v = u) then conns_of m u ++ [ws] else conns_of m v.
Proof.
  unfold conns_of. simpl. destruct (decide (v = u)) as [->|].
  - by rewrite lookup_insert_eq.
  - by rewrite lookup_insert_ne.
Qed.

Lemma connect_exclusive now ws u m :
  ¬ registered ws m → exclusive m → exclusive (connect now ws u m).
Proof.
  intros Hfresh [Hnd Hone].
  assert (∀ v, ws ∉ conns_of m v) as Hnot.
  { intros v Hv. apply Hfresh. by exists v. }
  split.
  - intros v. rewrite conns_of_connect. destruct (decide (v = u)); [|done].
    apply NoDup_app. split_and!; [done| |apply NoDup_singleton].
    intros c Hc ->%list_elem_of_singleton. by apply (Hnot u).
  - intros v1 v2 c. rewrite !conns_of_connect.
    destruct (decide (v1 = u)) as [->|]; destruct (decide (v2 = u)) as [->|];
      try done; rewrite ?elem_of_app ?list_elem_of_singleton.
    + intros [H1| ->] H2; [by eapply Hone|by destruct (Hnot v2)].
    + intros H1 [H2| ->]; [by eapply Hone|by destruct (Hnot v1)].
    + apply Hone.
Qed.

Lemma new_manager_exclusive : exclusive new_manager.
Proof.
  assert (∀ u, conns_of new_manager u = []) as Hnil.
  { intros u. unfold conns_of. simpl. by rewrite lookup_empty. }
  split.
  - intros u. rewrite Hnil. apply NoDup_nil_2.
  - intros u v ws. rewrite Hnil. by intros ?%elem_of_nil.
Qed.

Lemma apply_op_exclusive op m :
  match op with
  | OpConnect _ ws _ => ¬ registered ws m
  | _ => True
  end →
  exclusive m → exclusive (apply_op op m).
Proof.
  destruct op; simpl; intros Hfresh Hex.
  - by apply connect_exclusive.
  - by apply disconnect_exclusive.
  - by eapply exclusive_shrinks; [apply shrinks_same_registry|].
  - by eapply exclusive_shrinks; [apply shrinks_same_registry|].
  - by eapply exclusive_shrinks; [apply send_personal_message_shrinks|].
  - by eapply exclusive_shrinks; [apply broadcast_to_chatroom_shrinks|].
  - by eapply exclusive_shrinks; [apply gather_shrinks|].
  - by eapply exclusive_shrinks; [apply gather_shrinks|].
Qed.

Lemma run_ops_exclusive ops :
  ∀ m, exclusive m → fresh_connects ops m → exclusive (run_ops ops m).
Proof.
  induction ops as [|op ops IH]; intros m Hex Hfresh; [done|].
  destruct Hfresh as [Hop Hrest]. simpl. apply IH; [|done].
  by apply apply_op_exclusive.
Qed.

(** X9.  When every [connect] of a sequence of manager calls registers a
    socket that is not in the registry at that point, the registry reached
    from a fresh manager holds every socket at most once and under one user
    only. *)
Theorem X9_sockets_registered_once (ops : list manager_op) :
  fresh_connects ops new_manager →
  exclusive (run_ops ops new_manager).
Proof. intros Hfresh. by apply run_ops_exclusive; [apply new_manager_exclusive|]. Qed.

Lemma X9_sockets_registered_once_witness :
  fresh_connects [OpConnect 1 11 "A"; OpJoin "A" "general";
                  OpDisconnect 2 11 "A"] new_manager ∧
  exclusive (run_ops [OpConnect 1 11 "A"; OpJoin "A" "general";
                      OpDisconnect 2 11 "A"] new_manager).
Proof.
  assert (fresh_connects [OpConnect 1 11 "A"; OpJoin "A" "general";
                          OpDisconnect 2 11 "A"] new_manager) as Hfresh.
  { simpl. split_and!; try done. intros [u Hu]. unfold conns_of in Hu.
    simpl in Hu. rewrite lookup_empty in Hu. by apply elem_of_nil in Hu. }
  split; [exact Hfresh|].
  exact (X9_sockets_registered_once _ Hfresh).
Defined.

(** ** Who a broadcast reaches *)

Lemma received_deliveries_decide w msg m ws u (tasks : list string) :
  exclusive m → NoDup tasks → ws ∈ conns_of m u → send_ok w ws = true →
  received ws (deliveries w msg m tasks) =
    if decide (u ∈ tasks) then [msg] else [].
Proof.
  intros Hex Hnd Hws Hok. destruct (decide (u ∈ tasks)) as [Hin|Hout].
  - by apply (received_deliveries_own _ _ _ _ u).
  - apply received_deliveries_other. intros v Hv Hws'.
    destruct Hex as [_ Hone]. by rewrite (Hone v u ws Hws' Hws) in Hv.
Qed.

Lemma received_broadcast_to_chatroom_decide w now msg r ex m ws u :
  exclusive m →
  ws ∈ conns_of m u →
  send_ok w ws = true →
  received ws (broadcast_to_chatroom w now msg r ex m).2 =
    if decide (u ∈ get_chatroom_members r m ∧ excluded ex u = false)
    then [msg] else [].
Proof.
  intros Hex Hws Hok. unfold broadcast_to_chatroom, get_chatroom_members.
  destruct (chatroom_subscriptions m !! r) as [members|]; simpl.
  - rewrite gather_effects; [|apply NoDup_filter, NoDup_elements].
    rewrite (received_deliveries_decide _ _ _ _ u); try done;
      [|apply NoDup_filter, NoDup_elements].
    pose proof (conns_of_online _ _ _ Hws) as Hon.
    destruct (decide (u ∈ members ∧ excluded ex u = false)) as [[Hu Hexc]|Hno].
    + rewrite decide_True; [done|]. apply list_elem_of_filter.
      split_and!; [done|done|by apply elem_of_elements].
    + rewrite decide_False; [done|].
      intros [[Hexc _] Hu%elem_of_elements]%list_elem_of_filter. by apply Hno.
  - destruct (decide _) as [[Hu _]|]; [|done]. by apply not_elem_of_empty in Hu.
Qed.

(** X10.  In a registry that holds every socket once, a chatroom broadcast
    writes its message exactly once to every socket (accepting the write) of
    a subscriber of the room who is not the excluded user, and writes nothing
    to the sockets of the excluded user and of users who are not subscribed
    to the room. *)
Theorem X10_chatroom_broadcast_recipients w now msg r ex m ws u :
  exclusive m →
  ws ∈ conns_of m u →
  send_ok w ws = true →
  received ws (broadcast_to_chatroom w now msg r ex m).2 =
    if decide (u ∈ get_chatroom_members r m ∧ excluded ex u = false)
    then [msg] else [].
Proof.
  intros Hex Hws Hok. by apply received_broadcast_to_chatroom_decide.
Qed.

Lemma X10_chatroom_broadcast_recipients_witness :
  exclusive general_room ∧
  21%Z ∈ conns_of general_room "B" ∧
  send_ok all_up 21 = true ∧
  received 21 (broadcast_to_chatroom all_up 5 (pong_message 5) "general"
                 (Some "A") general_room).2 =
    if decide ("B" ∈ get_chatroom_members "general" general_room ∧
               excluded (Some "A") "B" = false)
    then [pong_message 5] else [].
Proof.
  assert (21%Z ∈ conns_of general_room "B") as Hws by (vm_compute; set_solver).
  split; [apply general_room_exclusive|]. split; [exact Hws|].
  split; [reflexivity|].
  exact (X10_chatroom_broadcast_recipients all_up 5 (pong_message 5) "general"
           (Some "A") general_room 21 "B" general_room_exclusive Hws eq_refl).
Defined.

(** X11.  In a registry that holds every socket once, [broadcast_to_all]
    writes its message exactly once to every registered socket (accepting the
    write) except those of the excluded user, which get nothing. *)
Theorem X11_broadcast_to_all_recipients w now msg ex m ws u :
  exclusive m →
  ws ∈ conns_of m u →
  send_ok w ws = true →
  received ws (broadcast_to_all w now msg ex m).2 =
    if excluded ex u then [] else [msg].
Proof.
  intros Hex Hws Hok. unfold broadcast_to_all.
  rewrite gather_effects; [|apply NoDup_filter, NoDup_elements].
  rewrite (received_deliveries_decide _ _ _ _ u); try done;
    [|apply NoDup_filter, NoDup_elements].
  pose proof (conns_of_online _ _ _ Hws) as Hon.
  apply bool_decide_eq_true in Hon.
  destruct (excluded ex u) eqn:Hexc.
  - rewrite decide_False; [done|].
    intros [Hno _]%list_elem_of_filter. congruence.
  - rewrite decide_True; [done|]. apply list_elem_of_filter. split; [done|].
    by apply elem_of_elements, elem_of_dom.
Qed.

Lemma X11_broadcast_to_all_recipients_witness :
  exclusive general_room ∧
  21%Z ∈ conns_of general_room "B" ∧
  send_ok all_up 21 = true ∧
  received 21 (broadcast_to_all all_up 5 (pong_message 5) (Some "A")
                 general_room).2 =
    if excluded (Some "A") "B" then [] else [pong_message 5].
Proof.
  assert (21%Z ∈ conns_of general_room "B") as Hws by (vm_compute; set_solver).
  split; [apply general_room_exclusive|]. split; [exact Hws|].
  split; [reflexivity|].
  exact (X11_broadcast_to_all_recipients all_up 5 (pong_message 5) (Some "A")
           general_room 21 "B" general_room_exclusive Hws eq_refl).
Defined.

(** ** Idle connections *)

Lemma elem_of_stale_connections t idle m ws u :
  (ws, u) ∈ stale_connections t idle m ↔
  ∃ md, connection_metadata m !! ws = Some md ∧ md_user_id md = u ∧
        is_stale t idle md = true.
Proof.
  unfold stale_connections. rewrite list_elem_of_fmap. split.
  - intros ([ws' md] & [= -> ->] & [Hst Hmd]%list_elem_of_filter).
    apply elem_of_map_to_list in Hmd. by exists md.
  - intros (md & Hmd & <- & Hst). exists (ws, md). split; [done|].
    apply list_elem_of_filter. split; [done|]. by apply elem_of_map_to_list.
Qed.

Lemma touch_all_metadata now (conns : list Z) c :
  ∀ m, connection_metadata (touch_all now conns m) !! c =
         if decide (c ∈ conns)
         then (λ md, mkMetadata (md_user_id md) (connected_at md) now) <$>
                connection_metadata m !! c
         else connection_metadata m !! c.
Proof.
  induction conns as [|x conns IH]; intros m.
  - cbn [touch_all foldl].
    destruct (decide (c ∈ [])) as [H|]; [by apply elem_of_nil in H|done].
  - cbn [touch_all foldl]. fold (touch_all now conns (touch now x m)).
    rewrite IH. cbn [touch connection_metadata]. rewrite lookup_alter.
    destruct (decide (c ∈ conns)) as [Hin|Hout];
      destruct (decide (x = c)) as [->|Hne];
      destruct (decide (c ∈ _ :: conns)) as [Hin'|Hout']; try done;
      try (by destruct Hout'; (left || right)).
    + by destruct (connection_metadata m !! c).
    + by apply elem_of_cons in Hin' as [->|].
Qed.

Lemma disconnect_metadata now ws u m :
  connection_metadata (disconnect now ws u m) = delete ws (connection_metadata m).
Proof.
  unfold disconnect.
  by repeat match goal with
            | |- context [let '(_, _) := ?p in _] => destruct p
            end.
Qed.

Lemma disconnect_all_metadata now u (failed : list Z) c :
  ∀ m, connection_metadata (disconnect_all now u failed m) !! c =
         if decide (c ∈ failed) then None else connection_metadata m !! c.
Proof.
  induction failed as [|x failed IH]; intros m.
  - cbn [disconnect_all foldl].
    destruct (decide (c ∈ [])) as [H|]; [by apply elem_of_nil in H|done].
  - cbn [disconnect_all foldl].
    fold (disconnect_all now u failed (disconnect now x u m)).
    rewrite IH disconnect_metadata lookup_delete.
    destruct (decide (c ∈ failed)) as [Hin|Hout];
      destruct (decide (x = c)) as [->|Hne];
      destruct (decide (c ∈ _ :: failed)) as [Hin'|Hout']; try done;
      try (by destruct Hout'; (left || right)).
    by apply elem_of_cons in Hin' as [->|].
Qed.

(** X12.  A delivery that writes to a socket of the user successfully sets
    that socket's [last_activity] to the instant of the delivery, so a sweep
    that runs no later than the idle threshold after it does not list the
    socket as stale. *)
Theorem X12_delivery_refreshes_activity w now msg u m ws md :
  ws ∈ conns_of m u →
  send_ok w ws = true →
  connection_metadata m !! ws = Some md →
  let m' := (send_personal_message w now msg u m).2.1 in
  connection_metadata m' !! ws =
    Some (mkMetadata (md_user_id md) (connected_at md) now) ∧
  ∀ t idle v, (t - now ≤ 60 * idle)%Z → (ws, v) ∉ stale_connections t idle m'.
Proof.
  intros Hws Hok Hmd m'.
  assert (connection_metadata m' !! ws =
          Some (mkMetadata (md_user_id md) (connected_at md) now)) as Hnew.
  { subst m'. unfold conns_of in Hws.
    destruct (active_connections m !! u) as [conns|] eqn:Hu;
      [|by apply elem_of_nil in Hws].
    rewrite (send_personal_message_online _ _ _ _ _ _ Hu). simpl in *.
    rewrite disconnect_all_metadata touch_all_metadata Hmd.
    destruct (decide (ws ∈ filter _ conns)) as [[Hbad _]%list_elem_of_filter|_];
      [congruence|].
    destruct (decide (ws ∈ filter _ conns)) as [_|Hno]; [done|].
    destruct Hno. by apply list_elem_of_filter. }
  split; [done|]. intros t idle v Hle.
  rewrite elem_of_stale_connections. intros (md' & Hmd' & _ & Hst).
  rewrite Hnew in Hmd'. injection Hmd' as <-.
  unfold is_stale in Hst. simpl in Hst. apply Z.ltb_lt in Hst. lia.
Qed.

Lemma X12_delivery_refreshes_activity_witness :
  11%Z ∈ conns_of one_socket "A" ∧
  send_ok all_up 11 = true ∧
  connection_metadata one_socket !! 11%Z = Some (mkMetadata "A" 0 0) ∧
  let m' := (send_personal_message all_up 1000 (pong_message 1000) "A"
               one_socket).2.1 in
  connection_metadata m' !! 11%Z =
    Some (mkMetadata (md_user_id (mkMetadata "A" 0 0))
            (connected_at (mkMetadata "A" 0 0)) 1000) ∧
  ∀ t idle v, (t - 1000 ≤ 60 * idle)%Z → (11%Z, v) ∉ stale_connections t idle m'.
Proof.
  assert (11%Z ∈ conns_of one_socket "A") as Hws.
  { change (conns_of one_socket "A") with [11%Z]. set_solver. }
  split; [exact Hws|]. split; [reflexivity|]. split; [reflexivity|].
  exact (X12_delivery_refreshes_activity all_up 1000 (pong_message 1000) "A"
           one_socket 11 (mkMetadata "A" 0 0) Hws eq_refl eq_refl).
Defined.

(** X13.  A socket that has just been registered is listed as stale by a
    sweep exactly when more than the idle threshold has passed since the
    [connect], and then under the user it was registered for. *)
Theorem X13_connected_socket_stale_after_threshold now ws u m t idle v :
  (ws, v) ∈ stale_connections t idle (connect now ws u m) ↔
  v = u ∧ (60 * idle < t - now)%Z.
Proof.
  rewrite elem_of_stale_connections. simpl. split.
  - intros (md & Hmd & <- & Hst). rewrite lookup_insert_eq in Hmd.
    injection Hmd as <-. unfold is_stale in Hst. simpl in *.
    by apply Z.ltb_lt in Hst.
  - intros [-> Hlt]. exists (mkMetadata u now now).
    rewrite lookup_insert_eq. split_and!; [done|done|].
    unfold is_stale. simpl. by apply Z.ltb_lt.
Qed.

(** ** The sweep *)

Lemma close_stale_eq now ws uid size0 keys m :
  close_stale now ws uid size0 keys m =
    if negb (size (active_connections m) =? size0)%nat then (m, [], true)
    else
      match keys with
      | [] => (m, [], false)
      | k :: rest =>
          if decide (ws ∈ conns_of m k) then
            let '(m1, out, raised) :=
              close_stale now ws uid size0 rest (disconnect now ws uid m) in
            (m1, Closed ws 4001 :: out, raised)
          else close_stale now ws uid size0 rest m
      end.
Proof. by destruct keys. Qed.

Lemma closed_sockets_app out1 out2 :
  closed_sockets (out1 ++ out2) = closed_sockets out1 ++ closed_sockets out2.
Proof. apply omap_app. Qed.

Lemma registered_shrinks ws m' m : shrinks m' m → registered ws m' → registered ws m.
Proof.
  intros Hsub [u Hu]. exists u. eapply elem_of_sublist; [exact Hu|apply Hsub].
Qed.

Lemma close_stale_sound now ws uid size0 (keys : list string) :
  ∀ m, let r := close_stale now ws uid size0 keys m in
       shrinks r.1.1 m ∧
       (well_formed m → well_formed r.1.1) ∧
       (∀ c, c ∈ closed_sockets r.1.2 → c = ws ∧ registered ws m).
Proof.
  induction keys as [|k keys IH]; intros m; cbn zeta; rewrite close_stale_eq;
    destruct (negb (size (active_connections m) =? size0)%nat);
    try (split_and!; [apply shrinks_refl|done|by intros c ?%elem_of_nil]).
  destruct (decide (ws ∈ conns_of m k)) as [Hin|Hout]; [|apply IH].
  specialize (IH (disconnect now ws uid m)). cbn zeta in IH.
  destruct (close_stale now ws uid size0 keys (disconnect now ws uid m))
    as [[m1 out] raised]. cbn [fst snd] in *.
  destruct IH as (Hsub & Hwf & Hclosed). split_and!.
  - eapply shrinks_trans; [exact Hsub|apply disconnect_shrinks].
  - intros Hm. by apply Hwf, disconnect_well_formed.
  - intros c. cbn [closed_sockets omap]. fold (closed_sockets out).
    intros [->|Hc]%elem_of_cons; [by split; [|exists k]|].
    destruct (Hclosed c Hc) as [-> _]. split; [done|by exists k].
Qed.

Lemma close_all_stale_sound now (stale : list (Z * string)) :
  ∀ m, let r := close_all_stale now stale m in
       shrinks r.1.1 m ∧
       (well_formed m → well_formed r.1.1) ∧
       (∀ c, c ∈ closed_sockets r.1.2 →
             registered c m ∧ ∃ u, (c, u) ∈ stale).
Proof.
  induction stale as [|[ws uid] stale IH]; intros m; cbn zeta.
  { split_and!; [apply shrinks_refl|done|by intros c ?%elem_of_nil]. }
  cbn [close_all_stale].
  pose proof (close_stale_sound now ws uid (size (active_connections m))
                (elements (dom (active_connections m))) m) as H1.
  cbn zeta in H1.
  destruct (close_stale now ws uid _ _ m) as [[m1 out1] raised].
  cbn [fst snd] in H1. destruct H1 as (Hsub1 & Hwf1 & Hclosed1).
  assert (∀ c, c ∈ closed_sockets out1 →
               registered c m ∧ ∃ u, (c, u) ∈ (ws, uid) :: stale) as Hc1.
  { intros c Hc. destruct (Hclosed1 c Hc) as [-> Hreg].
    split; [done|]. exists uid. by left. }
  destruct raised; [by split_and!|].
  specialize (IH m1). cbn zeta in IH.
  destruct (close_all_stale now stale m1) as [[m2 out2] raised2].
  cbn [fst snd] in *. destruct IH as (Hsub2 & Hwf2 & Hclosed2). split_and!.
  - by eapply shrinks_trans.
  - intros Hm. by apply Hwf2, Hwf1.
  - intros c. rewrite closed_sockets_app.
    intros [Hc|Hc]%elem_of_app; [by apply Hc1|].
    destruct (Hclosed2 c Hc) as [Hreg [u Hu]]. split.
    + by eapply registered_shrinks.
    + exists u. by right.
Qed.

(** X14.  The sweep closes no socket but those in the registry whose metadata
    shows more idle time than the threshold; it registers nothing, and it
    leaves no empty room entry or connection list behind. *)
Theorem X14_sweep_closes_only_stale now idle m :
  let r := cleanup_stale_connections now idle m in
  shrinks r.1 m ∧
  (well_formed m → well_formed r.1) ∧
  (∀ c, c ∈ closed_sockets r.2 →
     registered c m ∧
     ∃ md, connection_metadata m !! c = Some md ∧
           (60 * idle < now - last_activity md)%Z).
Proof.
  cbn zeta. unfold cleanup_stale_connections.
  pose proof (close_all_stale_sound now (stale_connections now idle m) m) as H.
  cbn zeta in H.
  destruct (close_all_stale now (stale_connections now idle m) m)
    as [[m1 out] raised]. cbn [fst snd] in *.
  destruct H as (Hsub & Hwf & Hclosed). split_and!; [done|done|].
  intros c. rewrite closed_sockets_app.
  assert (closed_sockets (if raised
            then [Logged "error" "Failed to cleanup stale connections"]
            else []) = []) as -> by by destruct raised.
  rewrite app_nil_r. intros Hc. destruct (Hclosed c Hc) as [Hreg [u Hu]].
  split; [done|].
  apply elem_of_stale_connections in Hu as (md & Hmd & _ & Hst).
  exists md. split; [done|]. unfold is_stale in Hst. by apply Z.ltb_lt in Hst.
Qed.

Lemma close_stale_single now ws uid (keys : list string) m :
  (∀ k, ws ∈ conns_of m k → k = uid) →
  length (conns_of m uid) ≤ 1 →
  let r := close_stale now ws uid (size (active_connections m)) keys m in
  r = (m, [], false) ∨ (r.2 = true ∧ closed_sockets r.1.2 = [ws]).
Proof.
  intros Hown Hone. induction keys as [|k keys IH]; cbn zeta;
    rewrite close_stale_eq Nat.eqb_refl; cbn [negb]; [by left|].
  destruct (decide (ws ∈ conns_of m k)) as [Hin|Hout]; [|apply IH].
  right. assert (k = uid) as -> by by apply Hown.
  assert (conns_of m uid = [ws]) as Hconns.
  { destruct (conns_of m uid) as [|c [|c' l]]; simpl in Hone;
      [by apply elem_of_nil in Hin| |lia].
    by apply list_elem_of_singleton in Hin as ->. }
  apply conns_of_Some in Hconns.
  rewrite close_stale_eq.
  rewrite (disconnect_last now ws uid m [ws] Hconns);
    [|by simpl; rewrite decide_True].
  cbn [active_connections].
  rewrite (map_size_delete_Some uid (active_connections m)); [|by eauto].
  assert (size (active_connections m) ≠ 0) as Hpos.
  { by apply (map_size_ne_0_lookup_2 _ uid). }
  destruct (Nat.eqb_spec (pred (size (active_connections m)))
              (size (active_connections m))) as [Heq|_]; [lia|].
  done.
Qed.

Lemma close_all_stale_single now (stale : list (Z * string)) m :
  (∀ ws uid k, (ws, uid) ∈ stale → ws ∈ conns_of m k → k = uid) →
  (∀ u, length (conns_of m u) ≤ 1) →
  length (closed_sockets (close_all_stale now stale m).1.2) ≤ 1.
Proof.
  intros Hown Hone. induction stale as [|[ws uid] stale IH]; [simpl; lia|].
  cbn [close_all_stale].
  destruct (close_stale_single now ws uid
              (elements (dom (active_connections m))) m) as [Heq|[Hraised Hclosed]].
  - intros k. apply Hown. by left.
  - apply Hone.
  - cbn zeta in Heq. rewrite Heq.
    assert (length (closed_sockets (close_all_stale now stale m).1.2) ≤ 1) as H.
    { apply IH. intros ws' uid' k Hin. apply Hown. by right. }
    by destruct (close_all_stale now stale m) as [[m2 out2] raised2].
  - cbn zeta in Hraised, Hclosed.
    destruct (close_stale now ws uid _ _ m) as [[m1 out1] raised].
    cbn [fst snd] in *. subst raised. cbn [fst snd]. by rewrite Hclosed.
Qed.

(** X15.  One run of the sweep closes at most one socket when every user has a
    single connection and the metadata names the user each socket is
    registered under: disconnecting a user's only socket deletes the user's
    registry entry while the search is iterating over the registry, and the
    iteration's [RuntimeError] ends the sweep. *)
Theorem X15_sweep_stops_after_first_close now idle m :
  metadata_consistent m →
  (∀ u, length (conns_of m u) ≤ 1) →
  length (closed_sockets (cleanup_stale_connections now idle m).2) ≤ 1.
Proof.
  intros Hmd Hone. unfold cleanup_stale_connections.
  pose proof (close_all_stale_single now (stale_connections now idle m) m) as H.
  destruct (close_all_stale now (stale_connections now idle m) m)
    as [[m1 out] raised]. cbn [fst snd] in *.
  rewrite closed_sockets_app length_app.
  assert (closed_sockets (if raised
            then [Logged "error" "Failed to cleanup stale connections"]
            else []) = []) as -> by by destruct raised.
  simpl. rewrite Nat.add_0_r. apply H; [|done].
  intros ws uid k (md & Hws & <- & _)%elem_of_stale_connections Hk.
  symmetry. by eapply Hmd.
Qed.

Lemma general_room_conns u :
  conns_of general_room u =
    if decide (u = "A") then [11%Z]
    else if decide (u = "B") then [21%Z] else [].
Proof.
  unfold conns_of.
  change (active_connections general_room)
    with (<[("B":string) := [21%Z]]>
            (<[("A":string) := [11%Z]]> (∅ : gmap string (list Z)))).
  repeat case_decide; subst; by simplify_map_eq.
Qed.

Lemma general_room_metadata_consistent : metadata_consistent general_room.
Proof.
  intros ws md v Hmd Hws. rewrite general_room_conns in Hws.
  repeat case_decide; subst;
    try (by apply elem_of_nil in Hws);
    apply list_elem_of_singleton in Hws; subst ws;
    vm_compute in Hmd; by injection Hmd as <-.
Qed.

Lemma X15_sweep_stops_after_first_close_witness :
  metadata_consistent general_room ∧
  (∀ u, length (conns_of general_room u) ≤ 1) ∧
  length (closed_sockets (cleanup_stale_connections 10000 30 general_room).2) ≤ 1.
Proof.
  assert (∀ u, length (conns_of general_room u) ≤ 1) as Hone.
  { intros u. rewrite general_room_conns. repeat case_decide; simpl; lia. }
  split; [apply general_room_metadata_consistent|]. split; [exact Hone|].
  exact (X15_sweep_stops_after_first_close 10000 30 general_room
           general_room_metadata_consistent Hone).
Defined.

(** ** Subscriptions under deliveries *)

Lemma members_disconnect now ws v m r :
  get_chatroom_members r (disconnect now ws v m) = get_chatroom_members r m ∨
  get_chatroom_members r (disconnect now ws v m) = get_chatroom_members r m ∖ {[v]}.
Proof.
  disconnect_cases now ws v m; [right|by left|by left].
  unfold get_chatroom_members at 1. simpl. apply members_purge_user.
Qed.

Lemma members_disconnect_other now ws v m r u :
  u ≠ v →
  u ∈ get_chatroom_members r (disconnect now ws v m) ↔
  u ∈ get_chatroom_members r m.
Proof.
  intros Hne. destruct (members_disconnect now ws v m r) as [->| ->]; set_solver.
Qed.

Lemma members_disconnect_all_other now v (failed : list Z) r u :
  u ≠ v →
  ∀ m, u ∈ get_chatroom_members r (disconnect_all now v failed m) ↔
       u ∈ get_chatroom_members r m.
Proof.
  intros Hne. induction failed as [|c failed IH]; intros m; [done|].
  simpl. rewrite IH. by apply members_disconnect_other.
Qed.

Lemma members_touch_all now conns m r :
  get_chatroom_members r (touch_all now conns m) = get_chatroom_members r m.
Proof. unfold get_chatroom_members. by rewrite touch_all_rooms. Qed.

Lemma members_send_personal_message_other w now msg v m r u :
  u ≠ v →
  u ∈ get_chatroom_members r (send_personal_message w now msg v m).2.1 ↔
  u ∈ get_chatroom_members r m.
Proof.
  intros Hne. destruct (active_connections m !! v) as [conns|] eqn:Hv.
  - rewrite (send_personal_message_online _ _ _ _ _ _ Hv). simpl.
    by rewrite members_disconnect_all_other // members_touch_all.
  - by rewrite send_personal_message_offline.
Qed.

Lemma members_gather_other w now msg (tasks : list string) r u :
  u ∉ tasks →
  ∀ m, u ∈ get_chatroom_members r (gather w now msg tasks m).1 ↔
       u ∈ get_chatroom_members r m.
Proof.
  induction tasks as [|v tasks IH]; intros Hu m; [done|]. cbn [gather].
  pose proof (members_send_personal_message_other w now msg v m r u) as H1.
  destruct (send_personal_message w now msg v m) as [ret [m1 out1]].
  cbn [fst snd] in *. specialize (IH ltac:(set_solver) m1).
  destruct (gather w now msg tasks m1) as [m2 out2]. cbn [fst snd] in *.
  rewrite IH. apply H1. set_solver.
Qed.

Lemma unsubscribes_disconnect now ws v m : unsubscribes (disconnect now ws v m) m.
Proof.
  intros r. destruct (members_disconnect now ws v m r) as [->| ->]; set_solver.
Qed.

Lemma unsubscribes_refl m : unsubscribes m m.
Proof. by intros r. Qed.

Lemma unsubscribes_trans m1 m2 m3 :
  unsubscribes m1 m2 → unsubscribes m2 m3 → unsubscribes m1 m3.
Proof. intros H1 H2 r. etrans; [apply H1|apply H2]. Qed.

Lemma unsubscribes_disconnect_all now v (failed : list Z) :
  ∀ m, unsubscribes (disconnect_all now v failed m) m.
Proof.
  induction failed as [|c failed IH]; intros m; [apply unsubscribes_refl|].
  simpl. eapply unsubscribes_trans; [apply IH|apply unsubscribes_disconnect].
Qed.

Lemma unsubscribes_send_personal_message w now msg v m :
  unsubscribes (send_personal_message w now msg v m).2.1 m.
Proof.
  destruct (active_connections m !! v) as [conns|] eqn:Hv.
  - rewrite (send_personal_message_online _ _ _ _ _ _ Hv). simpl.
    intros r. etrans; [apply unsubscribes_disconnect_all|].
    by rewrite members_touch_all.
  - rewrite send_personal_message_offline; [|done]. apply unsubscribes_refl.
Qed.

Lemma unsubscribes_gather w now msg (tasks : list string) :
  ∀ m, unsubscribes (gather w now msg tasks m).1 m.
Proof.
  induction tasks as [|v tasks IH]; intros m; [apply unsubscribes_refl|].
  cbn [gather].
  pose proof (unsubscribes_send_personal_message w now msg v m) as Hs.
  destruct (send_personal_message w now msg v m) as [ret [m1 out1]].
  cbn [fst snd] in *. specialize (IH m1).
  destruct (gather w now msg tasks m1) as [m2 out2]. cbn [fst snd] in *.
  by eapply unsubscribes_trans.
Qed.

Lemma unsubscribes_broadcast_to_chatroom w now msg r ex m :
  unsubscribes (broadcast_to_chatroom w now msg r ex m).1 m.
Proof.
  unfold broadcast_to_chatroom.
  destruct (chatroom_subscriptions m !! r);
    [apply unsubscribes_gather|apply unsubscribes_refl].
Qed.

Lemma excluded_self uid u : uid ≠ "" → excluded (Some uid) u = false ↔ u ≠ uid.
Proof.
  intros Hne%String.eqb_neq. unfold excluded. rewrite Hne. simpl.
  by rewrite String.eqb_neq.
Qed.

Lemma members_broadcast_excluded w now msg r uid m r' :
  uid ≠ "" →
  uid ∈ get_chatroom_members r' (broadcast_to_chatroom w now msg r (Some uid) m).1 ↔
  uid ∈ get_chatroom_members r' m.
Proof.
  intros Hne. unfold broadcast_to_chatroom.
  destruct (chatroom_subscriptions m !! r); [|done].
  apply members_gather_other.
  intros [[Hex _] _]%list_elem_of_filter. by apply (excluded_self uid uid Hne).
Qed.

Lemma stored_app out1 out2 : stored (out1 ++ out2) = stored out1 ++ stored out2.
Proof. apply omap_app. Qed.

Lemma stored_gather w now msg (tasks : list string) :
  ∀ m, stored (gather w now msg tasks m).2 = [].
Proof.
  assert (∀ conns : list Z, stored (send_effect w msg <$> conns) = []) as Hs.
  { induction conns as [|c conns IH]; [done|].
    cbn [fmap list_fmap]. unfold send_effect at 1. by destruct (send_ok w c). }
  induction tasks as [|u tasks IH]; intros m; [done|]. cbn [gather].
  assert (stored (send_personal_message w now msg u m).2.2 = []) as H1.
  { destruct (active_connections m !! u) as [conns|] eqn:Hu.
    - rewrite (send_personal_message_online _ _ _ _ _ _ Hu). apply Hs.
    - by rewrite send_personal_message_offline. }
  destruct (send_personal_message w now msg u m) as [ret [m1 out1]].
  cbn [fst snd] in *. specialize (IH m1).
  destruct (gather w now msg tasks m1) as [m2 out2].
  cbn [fst snd] in *. by rewrite stored_app H1 IH.
Qed.

Lemma stored_broadcast_to_chatroom w now msg room ex m :
  stored (broadcast_to_chatroom w now msg room ex m).2 = [].
Proof.
  unfold broadcast_to_chatroom.
  destruct (chatroom_subscriptions m !! room); [apply stored_gather|done].
Qed.

(** ** The event handlers *)

Lemma truthy_room room : room ≠ "" → truthy (JStr room) = true.
Proof. intros Hne%String.eqb_neq. simpl. by rewrite Hne. Qed.

(** X16.  When the membership check does not pass for the chatroom id of the
    event, [handle_join_chatroom] and [handle_send_message] leave the manager
    as it was, write to no socket, publish nothing and store no message. *)
Theorem X16_membership_gate w now user data m :
  check_chatroom_membership w (user_id_of user) (field "chatroom_id" data)
    = false →
  let j := handle_join_chatroom w now user data m in
  let s := handle_send_message w now user data m in
  j.1 = m ∧ s.1 = m ∧
  (∀ ws, received ws j.2 = [] ∧ received ws s.2 = []) ∧
  published j.2 = [] ∧ published s.2 = [] ∧ stored s.2 = [].
Proof.
  intros Hdenied. cbn zeta. unfold handle_join_chatroom, handle_send_message.
  destruct data as [| | | | | | |fields]; try by split_and!.
  cbn [field] in Hdenied. rewrite Hdenied. cbn [negb].
  destruct (negb (truthy (dict_get "chatroom_id" fields)));
    destruct (negb (truthy (dict_get "content" fields))); by split_and!.
Qed.

Lemma X16_membership_gate_witness :
  check_chatroom_membership nobody_listed (user_id_of alice)
    (field "chatroom_id" (JObj [("chatroom_id", JStr "general");
                                ("content", JStr "hi")])) = false ∧
  let data := JObj [("chatroom_id", JStr "general"); ("content", JStr "hi")] in
  let j := handle_join_chatroom nobody_listed 5 alice data general_room in
  let s := handle_send_message nobody_listed 5 alice data general_room in
  j.1 = general_room ∧ s.1 = general_room ∧
  (∀ ws, received ws j.2 = [] ∧ received ws s.2 = []) ∧
  published j.2 = [] ∧ published s.2 = [] ∧ stored s.2 = [].
Proof.
  split; [reflexivity|].
  apply (X16_membership_gate nobody_listed 5 alice
           (JObj [("chatroom_id", JStr "general"); ("content", JStr "hi")])
           general_room).
  reflexivity.
Defined.

Lemma exclusive_same_registry m' m :
  active_connections m' = active_connections m → exclusive m → exclusive m'.
Proof. intros Heq. by apply exclusive_shrinks, shrinks_same_registry. Qed.

(** X17.  A [join_chatroom] event of a user the membership table lists for the
    room subscribes the user, writes one [user_joined] envelope to every
    socket (accepting the write) of the users already subscribed, writes
    nothing to the joining user's own sockets or to anyone else, and
    publishes one [user_joined] message on the room's topic when Redis is
    reachable. *)
Theorem X17_join_notifies_the_others w now user room fields m :
  exclusive m →
  user_id_of user ≠ "" →
  room ≠ "" →
  dict_lookup "chatroom_id" fields = Some (JStr room) →
  is_member w (user_id_of user) room = true →
  let h := handle_join_chatroom w now user (JObj fields) m in
  user_id_of user ∈ get_chatroom_members room h.1 ∧
  (∀ ws v, ws ∈ conns_of m v → send_ok w ws = true →
     received ws h.2 =
       if decide (v ∈ get_chatroom_members room m ∧ v ≠ user_id_of user)
       then [user_joined_message now user room] else []) ∧
  published h.2 =
    if redis_ok w
    then [(JStr room, JObj [("event", JStr "user_joined");
                            ("user_id", JStr (user_id_of user));
                            ("username", JStr (username user));
                            ("timestamp", JTime now)])]
    else [].
Proof.
  intros Hex Huid Hroom Hlook Hmem. cbn zeta. unfold handle_join_chatroom, dict_get.
  rewrite Hlook. cbn [default id]. rewrite (truthy_room room Hroom).
  cbn [negb check_chatroom_membership]. rewrite Hmem. cbn [negb].
  set (m1 := join_chatroom (user_id_of user) room m).
  set (msg := user_joined_message now user room).
  pose proof (members_broadcast_excluded w now msg room (user_id_of user) m1 room
                Huid) as Hself.
  pose proof (received_broadcast_to_chatroom_decide w now msg room
                (Some (user_id_of user)) m1) as Hrecv.
  pose proof (published_broadcast_to_chatroom w now msg room
                (Some (user_id_of user)) m1) as Hpub.
  destruct (broadcast_to_chatroom w now msg room (Some (user_id_of user)) m1)
    as [m2 out]. cbn [fst snd] in *.
  assert (get_chatroom_members room m1 =
          get_chatroom_members room m ∪ {[user_id_of user]}) as Hm1.
  { unfold get_chatroom_members. subst m1. simpl. by rewrite lookup_insert_eq. }
  split_and!.
  - apply Hself. rewrite Hm1. set_solver.
  - intros ws v Hws Hok. rewrite received_app received_publish app_nil_r.
    rewrite (Hrecv ws v); [|by eapply exclusive_same_registry|done|done].
    rewrite Hm1.
    destruct (decide (v ∈ get_chatroom_members room m ∧ v ≠ user_id_of user))
      as [[Hv Hne]|Hno].
    + rewrite decide_True; [done|]. split; [set_solver|].
      by apply excluded_self.
    + rewrite decide_False; [done|]. intros [Hv Hexc%excluded_self]; [|done].
      apply Hno. split; [set_solver|done].
  - by rewrite published_app Hpub published_publish_to_redis.
Qed.

Lemma X17_join_notifies_the_others_witness :
  exclusive general_room ∧
  (user_id_of carol ≠ "") ∧ ("general" : string) ≠ "" ∧
  dict_lookup "chatroom_id" [("chatroom_id", JStr "general")]
    = Some (JStr "general") ∧
  is_member all_up (user_id_of carol) "general" = true ∧
  let h := handle_join_chatroom all_up 5 carol
             (JObj [("chatroom_id", JStr "general")]) general_room in
  user_id_of carol ∈ get_chatroom_members "general" h.1 ∧
  (∀ ws v, ws ∈ conns_of general_room v → send_ok all_up ws = true →
     received ws h.2 =
       if decide (v ∈ get_chatroom_members "general" general_room ∧
                  v ≠ user_id_of carol)
       then [user_joined_message 5 carol "general"] else []) ∧
  published h.2 =
    if redis_ok all_up
    then [(JStr "general", JObj [("event", JStr "user_joined");
                                 ("user_id", JStr (user_id_of carol));
                                 ("username", JStr (username carol));
                                 ("timestamp", JTime 5)])]
    else [].
Proof.
  split; [apply general_room_exclusive|]. split; [done|]. split; [done|].
  split; [reflexivity|]. split; [reflexivity|].
  exact (X17_join_notifies_the_others all_up 5 carol "general"
           [("chatroom_id", JStr "general")] general_room
           general_room_exclusive ltac:(done) ltac:(done) eq_refl eq_refl).
Defined.

(** X18.  A [leave_chatroom] event is honoured without a membership check:
    whether or not the user was subscribed, the user is not subscribed to the
    room afterwards, every socket (accepting the write) of the room's other
    subscribers is written one [user_left] envelope, and nobody else is
    written anything. *)
Theorem X18_leave_notifies_the_room w now uid room fields m :
  exclusive m →
  room ≠ "" →
  dict_lookup "chatroom_id" fields = Some (JStr room) →
  let h := handle_leave_chatroom w now uid (JObj fields) m in
  (uid ∉ get_chatroom_members room h.1) ∧
  (∀ ws v, ws ∈ conns_of m v → send_ok w ws = true →
     received ws h.2 =
       if decide (v ∈ get_chatroom_members room m ∧ v ≠ uid)
       then [user_left_message now uid (JStr room)] else []).
Proof.
  intros Hex Hroom Hlook. cbn zeta. unfold handle_leave_chatroom, dict_get.
  rewrite Hlook. cbn [default id]. rewrite (truthy_room room Hroom). cbn [negb].
  set (m1 := leave_chatroom uid room m).
  set (msg := user_left_message now uid (JStr room)).
  pose proof (unsubscribes_broadcast_to_chatroom w now msg room (Some uid) m1 room)
    as Hsub.
  pose proof (received_broadcast_to_chatroom_decide w now msg room (Some uid) m1)
    as Hrecv.
  destruct (broadcast_to_chatroom w now msg room (Some uid) m1) as [m2 out].
  cbn [fst snd] in *.
  assert (get_chatroom_members room m1 = get_chatroom_members room m ∖ {[uid]})
    as Hm1.
  { unfold get_chatroom_members. subst m1. simpl.
    by rewrite members_discard_user decide_True. }
  split.
  - rewrite Hm1 in Hsub. set_solver.
  - intros ws v Hws Hok. rewrite received_app received_publish app_nil_r.
    rewrite (Hrecv ws v); [|by eapply exclusive_same_registry|done|done].
    rewrite Hm1.
    destruct (decide (v ∈ get_chatroom_members room m ∧ v ≠ uid))
      as [[Hv Hne]|Hno].
    + rewrite decide_True; [done|]. split; [set_solver|].
      unfold excluded. apply String.eqb_neq in Hne. rewrite Hne.
      apply andb_false_r.
    + rewrite decide_False; [done|]. intros [Hv _]. apply Hno. set_solver.
Qed.

Lemma X18_leave_notifies_the_room_witness :
  exclusive general_room ∧
  ("general" : string) ≠ "" ∧
  dict_lookup "chatroom_id" [("chatroom_id", JStr "general")]
    = Some (JStr "general") ∧
  let h := handle_leave_chatroom all_up 5 "C"
             (JObj [("chatroom_id", JStr "general")]) general_room in
  ("C" ∉ get_chatroom_members "general" h.1) ∧
  (∀ ws v, ws ∈ conns_of general_room v → send_ok all_up ws = true →
     received ws h.2 =
       if decide (v ∈ get_chatroom_members "general" general_room ∧ v ≠ "C")
       then [user_left_message 5 "C" (JStr "general")] else []).
Proof.
  split; [apply general_room_exclusive|]. split; [done|]. split; [reflexivity|].
  exact (X18_leave_notifies_the_room all_up 5 "C" "general"
           [("chatroom_id", JStr "general")] general_room
           general_room_exclusive ltac:(done) eq_refl).
Defined.

(** X19.  A typing event writes one [typing_indicator] envelope, carrying the
    flag of the event, to every socket (accepting the write) of the room's
    subscribers other than the sender, and nothing to the sender or to users
    who are not subscribed; it publishes nothing, stores nothing and
    subscribes nobody. *)
Theorem X19_typing_indicator_recipients w now user room fields b m :
  exclusive m →
  user_id_of user ≠ "" →
  room ≠ "" →
  dict_lookup "chatroom_id" fields = Some (JStr room) →
  let h := handle_typing_indicator w now user (JObj fields) b m in
  (∀ ws v, ws ∈ conns_of m v → send_ok w ws = true →
     received ws h.2 =
       if decide (v ∈ get_chatroom_members room m ∧ v ≠ user_id_of user)
       then [typing_message now user (JStr room) b] else []) ∧
  published h.2 = [] ∧
  stored h.2 = [] ∧
  unsubscribes h.1 m.
Proof.
  intros Hex Huid Hroom Hlook. cbn zeta. unfold handle_typing_indicator, dict_get.
  rewrite Hlook. cbn [default id]. rewrite (truthy_room room Hroom). cbn [negb].
  split_and!.
  - intros ws v Hws Hok.
    rewrite (received_broadcast_to_chatroom_decide _ _ _ _ _ _ ws v); [|done..].
    destruct (decide (v ∈ get_chatroom_members room m ∧ v ≠ user_id_of user))
      as [[Hv Hne]|Hno].
    + rewrite decide_True; [done|]. split; [done|]. by apply excluded_self.
    + rewrite decide_False; [done|]. intros [Hv Hexc%excluded_self]; [|done].
      by apply Hno.
  - apply published_broadcast_to_chatroom.
  - apply stored_broadcast_to_chatroom.
  - apply unsubscribes_broadcast_to_chatroom.
Qed.

Lemma X19_typing_indicator_recipients_witness :
  exclusive general_room ∧
  (user_id_of alice ≠ "") ∧ ("general" : string) ≠ "" ∧
  dict_lookup "chatroom_id" [("chatroom_id", JStr "general")]
    = Some (JStr "general") ∧
  let h := handle_typing_indicator all_up 5 alice
             (JObj [("chatroom_id", JStr "general")]) true general_room in
  (∀ ws v, ws ∈ conns_of general_room v → send_ok all_up ws = true →
     received ws h.2 =
       if decide (v ∈ get_chatroom_members "general" general_room ∧
                  v ≠ user_id_of alice)
       then [typing_message 5 alice (JStr "general") true] else []) ∧
  published h.2 = [] ∧
  stored h.2 = [] ∧
  unsubscribes h.1 general_room.
Proof.
  split; [apply general_room_exclusive|]. split; [done|]. split; [done|].
  split; [reflexivity|].
  exact (X19_typing_indicator_recipients all_up 5 alice "general"
           [("chatroom_id", JStr "general")] true general_room
           general_room_exclusive ltac:(done) ltac:(done) eq_refl).
Defined.

(** X20.  A [send_message] event of a user the membership table lists for the
    room writes the [message_received] envelope once to every socket
    (accepting the write) of the room's subscribers and to no other socket,
    so the sender gets it only when subscribed; the message record is handed
    to the store once, and published once on the room's topic when Redis is
    reachable. *)
Theorem X20_send_message_recipients w now user room content fields m :
  exclusive m →
  room ≠ "" →
  truthy content = true →
  dict_lookup "chatroom_id" fields = Some (JStr room) →
  dict_lookup "content" fields = Some content →
  is_member w (user_id_of user) room = true →
  let h := handle_send_message w now user (JObj fields) m in
  let message := message_record now user (JStr room) content fields in
  (∀ ws v, ws ∈ conns_of m v → send_ok w ws = true →
     received ws h.2 =
       if decide (v ∈ get_chatroom_members room m)
       then [message_received message] else []) ∧
  stored h.2 = [message] ∧
  published h.2 =
    if redis_ok w
    then [(JStr room, JObj [("event", JStr "message_received");
                            ("message", message)])]
    else [].
Proof.
  intros Hex Hroom Hcontent Hlook Hlookc Hmem. cbn zeta.
  unfold handle_send_message, dict_get. rewrite Hlook Hlookc. cbn [default id].
  rewrite (truthy_room room Hroom) Hcontent.
  cbn [negb orb check_chatroom_membership]. rewrite Hmem. cbn [negb].
  set (message := message_record now user (JStr room) content fields).
  pose proof (received_broadcast_to_chatroom_decide w now
                (message_received message) room None m) as Hrecv.
  pose proof (published_broadcast_to_chatroom w now
                (message_received message) room None m) as Hpub.
  pose proof (stored_broadcast_to_chatroom w now
                (message_received message) room None m) as Hst.
  destruct (broadcast_to_chatroom w now (message_received message) room None m)
    as [m1 out]. cbn [fst snd] in *.
  split_and!.
  - intros ws v Hws Hok.
    rewrite received_cons received_app received_publish app_nil_r.
    rewrite (Hrecv ws v); [|done..]. simpl.
    destruct (decide (v ∈ get_chatroom_members room m)) as [Hv|Hno].
    + by rewrite decide_True.
    + rewrite decide_False; [done|]. by intros [? _].
  - change (stored (Stored message :: ?l)) with (message :: stored l).
    rewrite stored_app Hst. unfold publish_to_redis. by destruct (redis_ok w).
  - rewrite published_stored published_app Hpub.
    by rewrite published_publish_to_redis.
Qed.

Lemma X20_send_message_recipients_witness :
  exclusive general_room ∧
  ("general" : string) ≠ "" ∧
  truthy (JStr "hi") = true ∧
  dict_lookup "chatroom_id" [("chatroom_id", JStr "general"); ("content", JStr "hi")]
    = Some (JStr "general") ∧
  dict_lookup "content" [("chatroom_id", JStr "general"); ("content", JStr "hi")]
    = Some (JStr "hi") ∧
  is_member all_up (user_id_of carol) "general" = true ∧
  let fields := [("chatroom_id", JStr "general"); ("content", JStr "hi")] in
  let h := handle_send_message all_up 5 carol (JObj fields) general_room in
  let message := message_record 5 carol (JStr "general") (JStr "hi") fields in
  (∀ ws v, ws ∈ conns_of general_room v → send_ok all_up ws = true →
     received ws h.2 =
       if decide (v ∈ get_chatroom_members "general" general_room)
       then [message_received message] else []) ∧
  stored h.2 = [message] ∧
  published h.2 =
    if redis_ok all_up
    then [(JStr "general", JObj [("event", JStr "message_received");
                                 ("message", message)])]
    else [].
Proof.
  split; [apply general_room_exclusive|]. split; [done|].
  split; [reflexivity|]. split; [reflexivity|]. split; [reflexivity|].
  split; [reflexivity|].
  exact (X20_send_message_recipients all_up 5 carol "general" (JStr "hi")
           [("chatroom_id", JStr "general"); ("content", JStr "hi")]
           general_room general_room_exclusive ltac:(done) eq_refl eq_refl
           eq_refl eq_refl).
Defined.

(** ** Authentication *)

(** X21.  [verify_token] reads [settings.JWT_SECRET_KEY], an attribute that
    [Settings] does not declare: the read raises before [jwt.decode] is
    called.  So [verify_token] returns no payload and logs nothing, and
    [get_user_from_token] returns no user and logs the one error line
    "Token verification failed", whatever the token, the clock and the user
    table are. *)
Theorem X21_no_token_is_accepted now tz users decoded :
  settings_has "JWT_SECRET_KEY" = false ∧
  (∀ token_type, verify_token now tz decoded token_type = (None, [])) ∧
  get_user_from_token now tz users decoded =
    (None, [Logged "error" "Token verification failed"]).
Proof. split_and!; reflexivity. Qed.

Lemma get_user_from_token_refusal now tz users decoded :
  (get_user_from_token now tz users decoded).1 = None →
  ∃ logs,
    (get_user_from_token now tz users decoded).2 =
      logs ++ [Logged "error" "Token verification failed"] ∧
    (∀ c, received c logs = []) ∧ published logs = [] ∧ closed_sockets logs = [].
Proof. intros _. by exists []. Qed.

(** X22.  A connection whose token [get_user_from_token] refuses is closed
    with code 4000 and nothing else happens: the manager is left as it was,
    no socket is written, nothing is published, no other socket is closed;
    the refusal is logged as the error "Token verification failed" before the
    endpoint logs its own "WebSocket error". *)
Theorem X22_refused_token_closes w now tz users decoded ws accept_ok m :
  (get_user_from_token now tz users decoded).1 = None →
  let r := endpoint_connect w now tz users decoded ws accept_ok m in
  r.1.1 = CLOSED ∧
  r.1.2 = m ∧
  closed_sockets r.2 = [ws] ∧
  Closed ws 4000 ∈ r.2 ∧
  (∀ c, received c r.2 = []) ∧
  published r.2 = [] ∧
  (∃ before after,
     r.2 = before ++ Logged "error" "Token verification failed" ::
           Logged "error" "WebSocket error" :: after).
Proof.
  intros Hnone. cbn zeta.
  destruct (get_user_from_token_refusal now tz users decoded Hnone)
    as (logs & Hlogs & Hrecv & Hpub & Hclosed).
  unfold endpoint_connect.
  destruct (get_user_from_token now tz users decoded) as [auth out0].
  cbn [fst snd] in Hnone, Hlogs. subst auth out0.
  cbn [endpoint_open server_error endpoint_finally fst snd].
  split_and!; try done.
  - by rewrite closed_sockets_app closed_sockets_app Hclosed.
  - set_solver.
  - intros c. by rewrite !received_app Hrecv.
  - by rewrite !published_app Hpub.
  - exists logs, [Closed ws 4000]. by rewrite -assoc.
Qed.

(** An access token of the active user A that expires at instant 200,
    presented at instant 100, is refused like any other. *)
Lemma X22_refused_token_closes_witness :
  (get_user_from_token 100 0 user_table (access_token "A" 200)).1 = None ∧
  let r := endpoint_connect all_up 100 0 user_table (access_token "A" 200)
             12 true general_room in
  r.1.1 = CLOSED ∧
  r.1.2 = general_room ∧
  closed_sockets r.2 = [12%Z] ∧
  Closed 12 4000 ∈ r.2 ∧
  (∀ c, received c r.2 = []) ∧
  published r.2 = [] ∧
  (∃ before after,
     r.2 = before ++ Logged "error" "Token verification failed" ::
           Logged "error" "WebSocket error" :: after).
Proof.
  split; [reflexivity|].
  exact (X22_refused_token_closes all_up 100 0 user_table
           (access_token "A" 200) 12 true general_room eq_refl).
Defined.

(** ** The status envelope *)

Lemma dict_lookup_set_eq k v fields : dict_lookup k (dict_set k v fields) = Some v.
Proof.
  induction fields as [|[k' v'] fields IH]; simpl.
  - by rewrite String.eqb_refl.
  - destruct (String.eqb k k') eqn:Hk; simpl; rewrite ?String.eqb_refl ?Hk; done.
Qed.

Lemma dict_lookup_set_ne k k' v fields :
  k' ≠ k → dict_lookup k' (dict_set k v fields) = dict_lookup k' fields.
Proof.
  intros Hne. induction fields as [|[k0 v0] fields IH]; simpl.
  - apply String.eqb_neq in Hne. by rewrite Hne.
  - destruct (String.eqb k k0) eqn:Hk; simpl.
    + apply String.eqb_eq in Hk as <-.
      apply String.eqb_neq in Hne. by rewrite !Hne.
    + by rewrite IH.
Qed.

(** X23.  Whatever [user_data] the caller passes, the envelope of
    [broadcast_user_status] carries the event ["user_" + status], the status
    and the timestamp of the call; every other key of [user_data] keeps its
    value. *)
Theorem X23_status_envelope_fields now status user_data :
  let envelope := status_message now status user_data in
  field "event" envelope = JStr ("user_" +:+ status) ∧
  field "status" (field "data" envelope) = JStr status ∧
  field "timestamp" (field "data" envelope) = JTime now ∧
  ∀ k, k ≠ "status" → k ≠ "timestamp" →
       field k (field "data" envelope) = dict_get k user_data.
Proof.
  cbn zeta. unfold status_message. cbn [field dict_get dict_lookup String.eqb
    Ascii.eqb Bool.eqb default id]. unfold dict_get. split_and!.
  - done.
  - by rewrite dict_lookup_set_ne // dict_lookup_set_eq.
  - by rewrite dict_lookup_set_eq.
  - intros k Hs Ht. by rewrite !dict_lookup_set_ne.
Qed.

(** ** Opening and closing a connection *)

Lemma conns_of_gather_other w now msg (tasks : list string) u :
  u ∉ tasks →
  ∀ m, conns_of (gather w now msg tasks m).1 u = conns_of m u.
Proof.
  induction tasks as [|v tasks IH]; intros Hu m; [done|]. cbn [gather].
  pose proof (send_personal_message_conns_other w now msg v m u) as H1.
  destruct (send_personal_message w now msg v m) as [ret [m1 out1]].
  cbn [fst snd] in *. specialize (IH ltac:(set_solver) m1).
  destruct (gather w now msg tasks m1) as [m2 out2]. cbn [fst snd] in *.
  rewrite IH. unfold conns_of. rewrite H1; [done|]. set_solver.
Qed.

Lemma status_tasks_not_self u m :
  u ∉ filter (λ v, is_user_online v m = true) (elements (relevant_users u m)).
Proof.
  intros [_ Hu%elem_of_elements]%list_elem_of_filter.
  by apply elem_of_relevant_users in Hu as [? _].
Qed.

(** X24.  Opening a connection for an authenticated user on a socket that is
    not in the registry, in a registry that holds every socket once, leaves
    the connection [ACTIVE] with the socket appended to the user's connection
    list, and the only frame written to the socket is the [connected]
    envelope: the user's own [user_online] broadcast does not come back to
    it. *)
Theorem X24_open_registers_and_confirms w now ws (u : User) m :
  exclusive m →
  ¬ registered ws m →
  send_ok w ws = true →
  let r := endpoint_open w now ws (Some u) true m in
  r.1.1 = ACTIVE ∧
  conns_of r.1.2 (user_id_of u) = conns_of m (user_id_of u) ++ [ws] ∧
  received ws r.2 = [connected_message now u] ∧
  exclusive r.1.2.
Proof.
  intros Hex Hfresh Hok. cbn zeta. unfold endpoint_open. rewrite Hok. cbn [negb].
  set (m1 := connect now ws (user_id_of u) m).
  assert (exclusive m1) as Hex1 by by apply connect_exclusive.
  assert (conns_of m1 (user_id_of u) = conns_of m (user_id_of u) ++ [ws]) as Hc1.
  { subst m1. by rewrite conns_of_connect decide_True. }
  pose proof (broadcast_user_status_effects w now (user_id_of u) "online"
                (online_user_data u) m1) as Hout.
  pose proof (conns_of_gather_other w now
                (status_message now "online" (online_user_data u)) _
                (user_id_of u) (status_tasks_not_self (user_id_of u) m1) m1) as Hsame.
  pose proof (gather_shrinks w now
                (status_message now "online" (online_user_data u))
                (filter (λ v, is_user_online v m1 = true)
                   (elements (relevant_users (user_id_of u) m1))) m1) as Hsub.
  unfold broadcast_user_status in *.
  destruct (gather w now _ _ m1) as [m2 out]. cbn [fst snd] in *.
  split_and!; [done|by rewrite Hsame| |by eapply exclusive_shrinks].
  rewrite received_cons. simpl. rewrite decide_True; [|done].
  rewrite Hout (received_deliveries_decide _ _ _ _ (user_id_of u)); try done.
  - rewrite decide_False; [done|apply status_tasks_not_self].
  - apply NoDup_filter, NoDup_elements.
  - rewrite Hc1. set_solver.
Qed.

Lemma X24_open_registers_and_confirms_witness :
  exclusive general_room ∧
  ¬ registered 31 general_room ∧
  send_ok all_up 31 = true ∧
  let r := endpoint_open all_up 9 31 (Some carol) true general_room in
  r.1.1 = ACTIVE ∧
  conns_of r.1.2 (user_id_of carol) =
    conns_of general_room (user_id_of carol) ++ [31%Z] ∧
  received 31 r.2 = [connected_message 9 carol] ∧
  exclusive r.1.2.
Proof.
  assert (¬ registered 31 general_room) as Hfresh.
  { intros [v Hv]. rewrite general_room_conns in Hv.
    repeat case_decide; set_solver. }
  split; [apply general_room_exclusive|]. split; [exact Hfresh|].
  split; [reflexivity|].
  exact (X24_open_registers_and_confirms all_up 9 31 carol general_room
           general_room_exclusive Hfresh eq_refl).
Defined.

Lemma gather_metadata_none w now msg (tasks : list string) ws :
  ∀ m, connection_metadata m !! ws = None →
       connection_metadata (gather w now msg tasks m).1 !! ws = None.
Proof.
  induction tasks as [|v tasks IH]; intros m Hmd; [done|]. cbn [gather].
  assert (connection_metadata (send_personal_message w now msg v m).2.1 !! ws
          = None) as H1.
  { destruct (active_connections m !! v) as [conns|] eqn:Hv.
    - rewrite (send_personal_message_online _ _ _ _ _ _ Hv). simpl.
      rewrite disconnect_all_metadata touch_all_metadata Hmd.
      by repeat destruct (decide _).
    - by rewrite send_personal_message_offline. }
  destruct (send_personal_message w now msg v m) as [ret [m1 out1]].
  cbn [fst snd] in *. specialize (IH m1 H1).
  by destruct (gather w now msg tasks m1) as [m2 out2].
Qed.

Lemma endpoint_finally_deregisters w now ws (user : User) m :
  user_id_of user ≠ "" →
  NoDup (conns_of m (user_id_of user)) →
  let f := endpoint_finally w now ws (Some user) m in
  shrinks f.1 m ∧
  (ws ∉ conns_of f.1 (user_id_of user)) ∧
  connection_metadata f.1 !! ws = None.
Proof.
  intros Hne%String.eqb_neq Hnd. cbn zeta. unfold endpoint_finally.
  rewrite Hne. unfold broadcast_user_status.
  set (md := disconnect now ws (user_id_of user) m).
  pose proof (gather_shrinks w now
                (status_message now "offline" (offline_user_data user))
                (filter (λ v, is_user_online v md = true)
                   (elements (relevant_users (user_id_of user) md))) md) as Hsub.
  pose proof (gather_metadata_none w now
                (status_message now "offline" (offline_user_data user))
                (filter (λ v, is_user_online v md = true)
                   (elements (relevant_users (user_id_of user) md))) ws md) as Hmd.
  destruct (gather w now _ _ md) as [m2 out]. cbn [fst snd] in *.
  split_and!.
  - eapply shrinks_trans; [exact Hsub|apply disconnect_shrinks].
  - intros Hin. eapply elem_of_sublist in Hin; [|apply Hsub].
    subst md. rewrite conns_of_disconnect decide_True in Hin; [|done].
    by apply py_remove_NoDup in Hin.
  - apply Hmd. subst md. by rewrite disconnect_metadata lookup_delete_eq.
Qed.

Lemma endpoint_recv_deregisters w now ws (user : User) frame m :
  user_id_of user ≠ "" →
  NoDup (conns_of m (user_id_of user)) →
  let r := endpoint_recv w now ws user frame m in
  shrinks r.1.2 m ∧
  r.1.1 = CLOSED ∧
  (ws ∉ conns_of r.1.2 (user_id_of user)) ∧
  connection_metadata r.1.2 !! ws = None.
Proof.
  intros Hne Hnd. cbn zeta.
  pose proof (endpoint_finally_deregisters w now ws user m Hne Hnd) as Hfin.
  cbn zeta in Hfin.
  assert (let r := server_error w now ws (Some user) m in
          shrinks r.1.2 m ∧
          r.1.1 = CLOSED ∧ (ws ∉ conns_of r.1.2 (user_id_of user)) ∧
          connection_metadata r.1.2 !! ws = None) as Herr.
  { cbn zeta. unfold server_error.
    destruct (endpoint_finally w now ws (Some user) m) as [m1 out].
    cbn [fst snd] in *. by destruct Hfin as (? & ? & ?). }
  cbn zeta in Herr.
  destruct frame as [[v|]| |]; [| exact Herr | | exact Herr].
  - destruct v as [| | | | | | |envelope]; [exact Herr..|].
    by rewrite endpoint_recv_dict.
  - cbn [endpoint_recv].
    destruct (endpoint_finally w now ws (Some user) m) as [m1 out].
    cbn [fst snd] in *. by destruct Hfin as (? & ? & ?).
Qed.

(** X25.  The receive loop never adds a socket to the registry, and whenever
    it ends with the connection [CLOSED], for whatever reason, the socket is
    gone from its user's connection list and has no metadata left. *)
Theorem X25_closed_connection_is_deregistered w ws (user : User) frames m :
  user_id_of user ≠ "" →
  NoDup (conns_of m (user_id_of user)) →
  let r := endpoint_loop w ws user frames m in
  shrinks r.1.2 m ∧
  (r.1.1 = CLOSED →
   (ws ∉ conns_of r.1.2 (user_id_of user)) ∧
   connection_metadata r.1.2 !! ws = None).
Proof.
  intros Hne Hnd. destruct frames as [|[now frame] frames]; cbn zeta.
  { split; [apply shrinks_refl|done]. }
  cbn [endpoint_loop].
  pose proof (endpoint_recv_deregisters w now ws user frame m Hne Hnd) as H1.
  cbn zeta in H1.
  destruct (endpoint_recv w now ws user frame m) as [[st m1] out1].
  cbn [fst snd] in H1. by destruct H1 as (Hsub1 & -> & Hgone).
Qed.

(** Alice's socket gets a [send_message] frame and would get a ping after it:
    the loop ends at the first frame and the socket is deregistered. *)
Lemma X25_closed_connection_is_deregistered_witness :
  (user_id_of alice ≠ "") ∧
  NoDup (conns_of general_room (user_id_of alice)) ∧
  let r := endpoint_loop all_up 11 alice
             [(5, send_frame "general" "hi"); (6, ping_frame)]%Z general_room in
  shrinks r.1.2 general_room ∧
  (r.1.1 = CLOSED →
   (11%Z ∉ conns_of r.1.2 (user_id_of alice)) ∧
   connection_metadata r.1.2 !! 11%Z = None).
Proof.
  assert (NoDup (conns_of general_room (user_id_of alice))) as Hnd
    by apply general_room_exclusive.
  split; [done|]. split; [exact Hnd|].
  exact (X25_closed_connection_is_deregistered all_up 11 alice
           [(5, send_frame "general" "hi"); (6, ping_frame)]%Z general_room
           ltac:(done) Hnd).
Defined.

(** ** Who a status broadcast reaches *)

(** X26.  In a registry that holds every socket once, [broadcast_user_status]
    writes its status envelope exactly once to every socket (accepting the
    write) of a user who is subscribed to a chatroom the subject is subscribed
    to, and writes nothing to the subject's own sockets or to the sockets of
    users who share no chatroom with the subject. *)
Theorem X26_status_broadcast_recipients w now u status data m ws v :
  exclusive m →
  ws ∈ conns_of m v →
  send_ok w ws = true →
  received ws (broadcast_user_status w now u status data m).2 =
    (if decide (v ∈ relevant_users u m)
     then [status_message now status data] else []) ∧
  (v ∈ relevant_users u m ↔ v ≠ u ∧ shares_room u v m).
Proof.
  intros Hex Hws Hok. split; [|apply elem_of_relevant_users].
  rewrite broadcast_user_status_effects.
  rewrite (received_deliveries_decide _ _ _ _ v); try done;
    [|apply NoDup_filter, NoDup_elements].
  pose proof (conns_of_online _ _ _ Hws) as Hon.
  destruct (decide (v ∈ relevant_users u m)) as [Hv|Hno].
  - rewrite decide_True; [done|]. apply list_elem_of_filter.
    split; [done|by apply elem_of_elements].
  - rewrite decide_False; [done|].
    by intros [_ Hv%elem_of_elements]%list_elem_of_filter.
Qed.

Lemma X26_status_broadcast_recipients_witness :
  exclusive general_room ∧
  21%Z ∈ conns_of general_room "B" ∧
  send_ok all_up 21 = true ∧
  received 21 (broadcast_user_status all_up 5 "A" "online"
                 (online_user_data alice) general_room).2 =
    (if decide ("B" ∈ relevant_users "A" general_room)
     then [status_message 5 "online" (online_user_data alice)] else []) ∧
  ("B" ∈ relevant_users "A" general_room ↔
   "B" ≠ "A" ∧ shares_room "A" "B" general_room).
Proof.
  assert (21%Z ∈ conns_of general_room "B") as Hws by (vm_compute; set_solver).
  split; [apply general_room_exclusive|]. split; [exact Hws|].
  split; [reflexivity|].
  exact (X26_status_broadcast_recipients all_up 5 "A" "online"
           (online_user_data alice) general_room 21 "B"
           general_room_exclusive Hws eq_refl).
Defined.
